(** * Crash analytics dashboard: the client-side data pipeline

    A shallow embedding of the data transformations of the dashboard's
    React components, and the properties of its specification proved
    over them.

    The embedding:
    - [JS]: cells of parsed rows and the JavaScript operators applied to
      them;
    - [CrashMapFiltered]: the crash map with filters (join of
      [CRASH_2023.csv] with [FLAG_2023.csv], [calculateWeight],
      [filteredData], [getFillColor]);
    - [CrashMap]: the plain crash map of [components/CrashMap.jsx];
    - [AnalyticsPanel]: the chart aggregations of the same file
      ([processTimeDistribution], [processSeverityDistribution],
      [processWeatherDistribution], [processMonthlyTrends]);
    - [PredictionsContainer]: the 24-hour batch risk query of
      [components/PredictionsContainer.jsx];
    - [CrashStatistics]: the counts of the statistics cards;
    - [RiskPredictionPanel]: the hourly risk chart and the distribution
      of risk levels;
    - [Hotspot]: the colours of the hotspot panel and map, and the state
      that [fetchHotspots] writes;
    - [Spec]: the vocabulary of the specification; [Samples]: rows used
      as concrete inputs.

    The properties follow, one module per component.

    Rows are what [Papa.parse] returns with [header: true] and
    [dynamicTyping: true]: one JavaScript object per line, whose
    properties hold [undefined] (the line is short of that column),
    [null] (blank cell), a boolean, a number or a text.  Cells that the
    parser turns into [Date] objects are outside the embedding.  The
    operators the components apply to cells ([&&], [||], [>], [===],
    [*], [isNaN], property access by a computed key) carry the coercions
    of the language. *)

From Stdlib Require Import Ascii String QArith Qpower Lqa Lia.
From Stdlib Require Qcanon.
From Stdlib Require Import Sorted.
From stdpp Require Import gmap strings list fin_maps pretty.

Local Open Scope Z_scope.
Local Open Scope Q_scope.
Local Open Scope list_scope.
Local Open Scope string_scope.

(* ===================================================================== *)
(** * JavaScript values and operators                                     *)
(* ===================================================================== *)

Module JS.

(** A Number.  Finite values are kept as exact rationals: the rounding of
    binary64 is not modelled, so arithmetic agrees with the language on
    values that it represents exactly (the whole numbers of the count,
    hour and month columns).  The rational [0] stands for both zeros. *)
Inductive number : Type :=
  | NaN
  | Inf (negative : bool)
  | Fin (q : Q).

(** A cell of a parsed row. *)
Inductive cell : Type :=
  | Undefined
  | Null
  | Bool (b : bool)
  | Num (n : number)
  | Str (s : string).

Definition qzero (q : Q) : bool := Qeq_bool q 0.
Definition qneg (q : Q) : bool := negb (Qle_bool 0 q).

(** ** Numeric operators *)

(** [a < b]; [false] when either side is [NaN]. *)
Definition num_lt (a b : number) : bool :=
  match a, b with
  | NaN, _ | _, NaN => false
  | Inf true, Inf true => false
  | Inf true, _ => true
  | Inf false, _ => false
  | Fin _, Inf neg => negb neg
  | Fin p, Fin q => negb (Qle_bool q p)
  end.

(** [a <= b]; [false] when either side is [NaN]. *)
Definition num_le (a b : number) : bool :=
  match a, b with
  | NaN, _ | _, NaN => false
  | Inf true, _ => true
  | Inf false, Inf false => true
  | Inf false, _ => false
  | Fin _, Inf neg => negb neg
  | Fin p, Fin q => Qle_bool p q
  end.

(** Number::equal, the [===] of two Numbers. *)
Definition num_eq (a b : number) : bool :=
  match a, b with
  | Fin p, Fin q => Qeq_bool p q
  | Inf s, Inf t => Bool.eqb s t
  | _, _ => false
  end.

Definition num_neg (a : number) : number :=
  match a with
  | NaN => NaN
  | Inf s => Inf (negb s)
  | Fin q => Fin (- q)
  end.

Definition num_add (a b : number) : number :=
  match a, b with
  | NaN, _ | _, NaN => NaN
  | Inf s, Inf t => if Bool.eqb s t then Inf s else NaN
  | Inf s, Fin _ | Fin _, Inf s => Inf s
  | Fin p, Fin q => Fin (p + q)
  end.

Definition num_sub (a b : number) : number := num_add a (num_neg b).

Definition num_mul (a b : number) : number :=
  match a, b with
  | NaN, _ | _, NaN => NaN
  | Inf s, Inf t => Inf (xorb s t)
  | Inf s, Fin q | Fin q, Inf s =>
      if qzero q then NaN else Inf (xorb s (qneg q))
  | Fin p, Fin q => Fin (p * q)
  end.

(** ** StringToNumber

    The StringNumericLiteral grammar: optional white space around an
    optional literal, which is a signed decimal literal, a signed
    [Infinity], or an unsigned binary, octal or hexadecimal integer.
    Texts are read as sequences of ASCII characters. *)

Definition is_ws (a : ascii) : bool :=
  let n := nat_of_ascii a in
  ((n =? 9) || (n =? 10) || (n =? 11) || (n =? 12) || (n =? 13) || (n =? 32))%nat.

Fixpoint trim_left (s : list ascii) : list ascii :=
  match s with
  | a :: t => if is_ws a then trim_left t else s
  | [] => []
  end.

Definition trim (s : list ascii) : list ascii :=
  rev (trim_left (rev (trim_left s))).

(** The value of a digit in the given radix. *)
Definition digit_of (radix : N) (a : ascii) : option N :=
  let n := N_of_ascii a in
  let v :=
    if (48 <=? n)%N && (n <=? 57)%N then Some (n - 48)%N
    else if (97 <=? n)%N && (n <=? 102)%N then Some (n - 87)%N
    else if (65 <=? n)%N && (n <=? 70)%N then Some (n - 55)%N
    else None in
  match v with
  | Some d => if (d <? radix)%N then Some d else None
  | None => None
  end.

(** Splits off the longest prefix of digits. *)
Fixpoint span_digits (radix : N) (s : list ascii) : list N * list ascii :=
  match s with
  | a :: t =>
      match digit_of radix a with
      | Some d => let '(ds, r) := span_digits radix t in (d :: ds, r)
      | None => ([], s)
      end
  | [] => ([], [])
  end.

Definition digits_value (radix : N) (ds : list N) : N :=
  fold_left (fun acc d => (acc * radix + d)%N) ds 0%N.

(** A whole text of digits, at least one. *)
Definition all_digits (radix : N) (s : list ascii) : option N :=
  match span_digits radix s with
  | (d :: ds, []) => Some (digits_value radix (d :: ds))
  | _ => None
  end.

Definition chars (s : string) : list ascii := list_ascii_of_string s.

(** NonDecimalIntegerLiteral: [0b], [0o], [0x] and their digits. *)
Definition non_decimal (s : list ascii) : option N :=
  match s with
  | "0"%char :: p :: t =>
      if (Ascii.eqb p "x" || Ascii.eqb p "X")%char then all_digits 16 t
      else if (Ascii.eqb p "o" || Ascii.eqb p "O")%char then all_digits 8 t
      else if (Ascii.eqb p "b" || Ascii.eqb p "B")%char then all_digits 2 t
      else None
  | _ => None
  end.

(** An optional sign: [true] for [-]. *)
Definition split_sign (s : list ascii) : bool * list ascii :=
  match s with
  | "-"%char :: t => (true, t)
  | "+"%char :: t => (false, t)
  | _ => (false, s)
  end.

(** ExponentPart, or nothing. *)
Definition exponent (s : list ascii) : option Z :=
  match s with
  | [] => Some 0%Z
  | e :: t =>
      if (Ascii.eqb e "e" || Ascii.eqb e "E")%char then
        let '(neg, u) := split_sign t in
        match all_digits 10 u with
        | Some n => Some (if neg then - Z.of_N n else Z.of_N n)%Z
        | None => None
        end
      else None
  end.

(** StrUnsignedDecimalLiteral without [Infinity]: digits, an optional
    fraction, an optional exponent, and a digit on one side of the dot at
    least. *)
Definition unsigned_decimal (s : list ascii) : option Q :=
  let '(ip, r1) := span_digits 10 s in
  let '(fp, r2) :=
    match r1 with
    | "."%char :: r => span_digits 10 r
    | _ => ([], r1)
    end in
  match (ip ++ fp)%list, exponent r2 with
  | _ :: _, Some e =>
      Some (inject_Z (Z.of_N (digits_value 10 (ip ++ fp)%list))
            * Qpower 10 (e - Z.of_nat (length fp)))
  | _, _ => None
  end.

Definition StringToNumber (s : string) : number :=
  let t := trim (chars s) in
  match t with
  | [] => Fin 0
  | _ =>
      match non_decimal t with
      | Some n => Fin (inject_Z (Z.of_N n))
      | None =>
          let '(neg, u) := split_sign t in
          if String.eqb (string_of_list_ascii u) "Infinity" then Inf neg
          else match unsigned_decimal u with
               | Some q => Fin (if neg then - q else q)
               | None => NaN
               end
      end
  end.

(** ** Number::toString

    The shortest decimal spelling of a finite value [s * 10^(n-k)] with
    [k] digits [s]: plain digits up to 21 places, a fraction down to six
    leading zeros, exponent notation beyond. *)

Definition digits_of_N (n : N) : list ascii := chars (pretty n).

(** Divides the trailing zeros out of [m], counting them from [t] on. *)
Fixpoint strip_zeros (fuel : nat) (m : Z) (t : nat) : Z * nat :=
  match fuel with
  | O => (m, t)
  | S fuel' =>
      if (m mod 10 =? 0)%Z then strip_zeros fuel' (m / 10)%Z (S t) else (m, t)
  end.

(** The least [j], from [j] on, that makes [a / b * 10^j] whole, with
    that whole number. *)
Fixpoint decimal_places (fuel : nat) (a : Z) (b : positive) (j : nat)
  : option (Z * nat) :=
  match fuel with
  | O => None
  | S fuel' =>
      let m := (a * 10 ^ Z.of_nat j)%Z in
      if (m mod Zpos b =? 0)%Z then Some ((m / Zpos b)%Z, j)
      else decimal_places fuel' a b (S j)
  end.

(** The digits [ds] of [s] placed so that the value is [s * 10^(n-k)]. *)
Definition format_digits (ds : list ascii) (n : Z) : list ascii :=
  let k := Z.of_nat (length ds) in
  if ((k <=? n) && (n <=? 21))%Z then
    (ds ++ repeat "0"%char (Z.to_nat (n - k)))%list
  else if ((0 <? n) && (n <=? 21))%Z then
    (take (Z.to_nat n) ds ++ "."%char :: drop (Z.to_nat n) ds)%list
  else if ((-6 <? n) && (n <=? 0))%Z then
    ("0"%char :: "."%char :: repeat "0"%char (Z.to_nat (- n)) ++ ds)%list
  else
    let e := (n - 1)%Z in
    let mantissa :=
      match ds with
      | d :: (_ :: _) as r => d :: "."%char :: r
      | _ => ds
      end in
    (mantissa ++ "e"%char :: (if (e <? 0)%Z then "-"%char else "+"%char)
              :: digits_of_N (Z.to_N (Z.abs e)))%list.

(** A positive reduced fraction [a / b].  One that is no finite decimal
    is the value of no Number; it is spelled as the fraction. *)
Definition positive_to_string (a : Z) (b : positive) : list ascii :=
  match decimal_places (S (Pos.size_nat b)) a b 0 with
  | Some (m, j) =>
      let '(s, t) := strip_zeros (Z.to_nat (Z.log2 m)) m 0 in
      let ds := digits_of_N (Z.to_N s) in
      format_digits ds (Z.of_nat (length ds) + Z.of_nat t - Z.of_nat j)
  | None => (digits_of_N (Z.to_N a) ++ "/"%char :: digits_of_N (Npos b))%list
  end.

Definition NumberToString (n : number) : string :=
  match n with
  | NaN => "NaN"
  | Inf false => "Infinity"
  | Inf true => "-Infinity"
  | Fin q =>
      let r := Qred q in
      match Qnum r with
      | Z0 => "0"
      | Zpos a => string_of_list_ascii (positive_to_string (Zpos a) (Qden r))
      | Zneg a =>
          String "-" (string_of_list_ascii (positive_to_string (Zpos a) (Qden r)))
      end
  end.

(** ** Coercions of cells *)

Definition ToBoolean (c : cell) : bool :=
  match c with
  | Undefined | Null => false
  | Bool b => b
  | Num NaN => false
  | Num (Inf _) => true
  | Num (Fin q) => negb (qzero q)
  | Str s => negb (String.eqb s "")
  end.

Definition ToNumber (c : cell) : number :=
  match c with
  | Undefined => NaN
  | Null => Fin 0
  | Bool b => if b then Fin 1 else Fin 0
  | Num n => n
  | Str s => StringToNumber s
  end.

(** The key a cell names when it is used in [object[cell]]. *)
Definition ToPropertyKey (c : cell) : string :=
  match c with
  | Undefined => "undefined"
  | Null => "null"
  | Bool b => if b then "true" else "false"
  | Num n => NumberToString n
  | Str s => s
  end.

(** The array index a property key denotes: the canonical decimal
    spelling of a whole number below [2^32 - 1]. *)
Definition array_index (k : string) : option N :=
  match all_digits 10 (chars k) with
  | Some n =>
      if String.eqb (pretty n) k && (n <? 4294967295)%N then Some n else None
  | None => None
  end.

(** ** Operators on cells

    The right operand is a numeric literal wherever the components
    compare, so the comparison is the numeric one after [ToNumber]. *)

Definition js_lt (c : cell) (n : number) : bool := num_lt (ToNumber c) n.
Definition js_le (c : cell) (n : number) : bool := num_le (ToNumber c) n.
Definition js_gt (c : cell) (n : number) : bool := num_lt n (ToNumber c).
Definition js_ge (c : cell) (n : number) : bool := num_le n (ToNumber c).

(** [c === n]: no coercion, a cell that is no Number differs. *)
Definition strict_eq (c : cell) (n : number) : bool :=
  match c with
  | Num m => num_eq m n
  | _ => false
  end.

(** [a || b]. *)
Definition js_or (a b : cell) : cell := if ToBoolean a then a else b.

(** [a * b]. *)
Definition js_mul (a b : cell) : number := num_mul (ToNumber a) (ToNumber b).

(** The global [isNaN]. *)
Definition isNaN (c : cell) : bool :=
  match ToNumber c with
  | NaN => true
  | _ => false
  end.

(** A parsed row: a JavaScript object read by column name; a column the
    row lacks reads as [undefined]. *)
Definition field (r : gmap string cell) (k : string) : cell :=
  default Undefined (r !! k).

End JS.

Import JS.

Abbreviation row := (gmap string cell).

(* ===================================================================== *)
(** * The filtered crash map: join, weight and filters                    *)
(* ===================================================================== *)

(** The [CrashMap] component with the time and severity selectors
    ([src/unnamed/part_003]). *)

Module CrashMapFiltered.

(** What [flagLookup[crash.CRN] || {}] can evaluate to.  [flagLookup] is
    a plain object: besides the flag rows stored in it, a key can reach
    its prototype. *)
Inductive value : Type :=
  | VCell (c : cell)
  | VRow (r : row)
  | VObjectPrototype
  | VBuiltin (name : string)
  | VEmpty.

(** The lookup object: its own properties, and its prototype once an
    assignment to [__proto__] has replaced [Object.prototype]. *)
Record lookup : Type := {
  own : gmap string row;
  proto : option row
}.

Definition empty_lookup : lookup := {| own := ∅; proto := None |}.

Definition object_prototype_names : list string :=
  ["constructor"; "__defineGetter__"; "__defineSetter__"; "hasOwnProperty";
   "__lookupGetter__"; "__lookupSetter__"; "isPrototypeOf";
   "propertyIsEnumerable"; "toString"; "valueOf"; "__proto__";
   "toLocaleString"].

(** [flagLookup[key] = flag]. *)
Definition assign (l : lookup) (key : string) (flag : row) : lookup :=
  if String.eqb key "__proto__" then {| own := own l; proto := Some flag |}
  else {| own := <[key := flag]> (own l); proto := proto l |}.

(** [if (flag.CRN) { flagLookup[flag.CRN] = flag; }] *)
Definition store (l : lookup) (flag : row) : lookup :=
  if ToBoolean (field flag "CRN")
  then assign l (ToPropertyKey (field flag "CRN")) flag
  else l.

(** [flagLookup] after [flagResults.data.forEach(flag => ...)]. *)
Definition flagLookup (flags : list row) : lookup :=
  fold_left store flags empty_lookup.

Definition object_prototype_get (key : string) : value :=
  if existsb (String.eqb key) object_prototype_names then VBuiltin key
  else VCell Undefined.

(** [flagLookup[key]]. *)
Definition get (l : lookup) (key : string) : value :=
  match own l !! key with
  | Some flag => VRow flag
  | None =>
      match proto l with
      | None =>
          if String.eqb key "__proto__" then VObjectPrototype
          else object_prototype_get key
      | Some p =>
          if String.eqb key "__proto__" then VRow p
          else match p !! key with
               | Some c => VCell c
               | None => object_prototype_get key
               end
      end
  end.

Definition truthy (v : value) : bool :=
  match v with
  | VCell c => ToBoolean c
  | _ => true
  end.

(** [v || {}]. *)
Definition or_empty (v : value) : value := if truthy v then v else VEmpty.

(** [calculateWeight]. *)
Definition calculateWeight (crash : row) : number :=
  num_add
    (num_add
       (num_add (js_mul (js_or (field crash "FATAL_COUNT") (Num (Fin 0))) (Num (Fin 10)))
                (js_mul (js_or (field crash "INJURY_COUNT") (Num (Fin 0))) (Num (Fin 5))))
       (js_mul (js_or (field crash "POSSIBLE_INJ_COUNT") (Num (Fin 0))) (Num (Fin 2))))
    (Fin 1).

(** A record of [combinedData]: the columns of the crash row spread into
    it, and the three properties added by the join.  The filters and the
    layer read columns ([d.HOUR_OF_DAY], [d.FATAL_COUNT], ...) out of
    [crash], whose names differ from the added ones. *)
Record enriched : Type := {
  crash : row;
  flags : value;
  weight : number;
  position : number * number
}.

(** The validity test of [loadData]; a chain of [&&] is truthy when each
    operand is. *)
Definition isValid (crash : row) : bool :=
  ToBoolean (field crash "DEC_LAT")
  && ToBoolean (field crash "DEC_LONG")
  && negb (isNaN (field crash "DEC_LAT"))
  && negb (isNaN (field crash "DEC_LONG")).

Definition enrich (l : lookup) (crash : row) : enriched :=
  {| crash := crash;
     flags := or_empty (get l (ToPropertyKey (field crash "CRN")));
     weight := calculateWeight crash;
     position := (ToNumber (field crash "DEC_LONG"), ToNumber (field crash "DEC_LAT")) |}.

(** [loadData], from the two parsed files to the [data] state. *)
Definition loadData (flagRows crashRows : list row) : list enriched :=
  List.map (enrich (flagLookup flagRows)) (List.filter isValid crashRows).

(** The first [.filter] of [filteredData]. *)
Definition timeFilter (selectedTimeRange : string) (d : enriched) : bool :=
  if String.eqb selectedTimeRange "all" then true
  else
    let hour := field (crash d) "HOUR_OF_DAY" in
    if String.eqb selectedTimeRange "morning" then
      js_ge hour (Fin 6) && js_lt hour (Fin 12)
    else if String.eqb selectedTimeRange "afternoon" then
      js_ge hour (Fin 12) && js_lt hour (Fin 18)
    else if String.eqb selectedTimeRange "evening" then
      js_ge hour (Fin 18) && js_lt hour (Fin 24)
    else if String.eqb selectedTimeRange "night" then
      js_ge hour (Fin 0) && js_lt hour (Fin 6)
    else true.

(** The second [.filter] of [filteredData]. *)
Definition severityFilter (selectedSeverity : string) (d : enriched) : bool :=
  if String.eqb selectedSeverity "all" then true
  else if String.eqb selectedSeverity "fatal" then
    js_gt (field (crash d) "FATAL_COUNT") (Fin 0)
  else if String.eqb selectedSeverity "injury" then
    js_gt (field (crash d) "INJURY_COUNT") (Fin 0)
  else true.

Definition filteredData (data : list enriched)
    (selectedTimeRange selectedSeverity : string) : list enriched :=
  List.filter (severityFilter selectedSeverity)
    (List.filter (timeFilter selectedTimeRange) data).

(** [getFillColor] of the scatter plot layer. *)
Definition getFillColor (d : enriched) : list Z :=
  (if js_gt (field (crash d) "FATAL_COUNT") (Fin 0) then [255; 0; 0; 255]
   else if js_gt (field (crash d) "INJURY_COUNT") (Fin 0) then [255; 140; 0; 255]
   else [255; 255; 0; 255])%Z.

End CrashMapFiltered.

(* ===================================================================== *)
(** * The plain crash map                                                 *)
(* ===================================================================== *)

(** The [CrashMap] component of [components/CrashMap.jsx]. *)

Module CrashMap.

Inductive severity : Type := FATAL | INJURY | PDO.

(** A point of the scatter plot. *)
Record point : Type := {
  position : cell * cell;
  severity_of : severity;
  color : list Z
}.

(** The rows that pass [.filter(row => row.DEC_LAT && row.DEC_LONG)]. *)
Definition validRows (rows : list row) : list row :=
  List.filter
    (fun row => ToBoolean (field row "DEC_LAT") && ToBoolean (field row "DEC_LONG"))
    rows.

Definition toPoint (row : row) : point :=
  {| position := (field row "DEC_LONG", field row "DEC_LAT");
     severity_of :=
       if js_gt (field row "FATAL_COUNT") (Fin 0) then FATAL
       else if js_gt (field row "INJURY_COUNT") (Fin 0) then INJURY
       else PDO;
     color :=
       (if js_gt (field row "FATAL_COUNT") (Fin 0) then [255; 0; 0]
        else if js_gt (field row "INJURY_COUNT") (Fin 0) then [255; 140; 0]
        else [255; 255; 0])%Z |}.

(** [loadData], from the parsed file to the [data] state. *)
Definition loadData (rows : list row) : list point :=
  List.map toPoint (validRows rows).

End CrashMap.

(* ===================================================================== *)
(** * The analytics panel: chart aggregations                             *)
(* ===================================================================== *)

(** The [AnalyticsPanel] component of [components/CrashMap.jsx], which
    aggregates every parsed row of [CRASH_2023.csv]. *)

Module AnalyticsPanel.

(** [distribution[key]++] on the array of counters.  A key that is no
    array index lands on a named property, which [.map] never visits; an
    index past the last slot would grow the array, and the guard of
    [processTimeDistribution] excludes it ([guarded_hour_in_range]). *)
Definition increment (distribution : list nat) (key : cell) : list nat :=
  match array_index (ToPropertyKey key) with
  | Some i => alter S (N.to_nat i) distribution
  | None => distribution
  end.

(** [hour.toString().padStart(2, '0')] followed by [:00]. *)
Definition hour_label (hour : nat) : string :=
  let t := pretty hour in
  (if (String.length t <? 2)%nat then "0" +:+ t else t) +:+ ":00".

Definition hour_guard (crash : row) : bool :=
  js_ge (field crash "HOUR_OF_DAY") (Fin 0)
  && js_lt (field crash "HOUR_OF_DAY") (Fin 24).

(** The body of the [forEach] of [processTimeDistribution]. *)
Definition count_hour (distribution : list nat) (crash : row) : list nat :=
  if hour_guard crash
  then increment distribution (field crash "HOUR_OF_DAY")
  else distribution.

(** The array of counters after the [forEach]. *)
Definition hour_counts (crashes : list row) : list nat :=
  fold_left count_hour crashes (replicate 24 0%nat).

(** [processTimeDistribution]: a list of [{hour, crashes}]. *)
Definition processTimeDistribution (crashes : list row) : list (string * nat) :=
  imap (fun hour count => (hour_label hour, count)) (hour_counts crashes).

(** The three callbacks of [processSeverityDistribution]. *)
Definition is_fatal (c : row) : bool := js_gt (field c "FATAL_COUNT") (Fin 0).

Definition is_injury (c : row) : bool :=
  js_gt (field c "INJURY_COUNT") (Fin 0) && strict_eq (field c "FATAL_COUNT") (Fin 0).

Definition is_property (c : row) : bool :=
  strict_eq (field c "FATAL_COUNT") (Fin 0) && strict_eq (field c "INJURY_COUNT") (Fin 0).

(** [processSeverityDistribution]: a list of [{type, count}]. *)
Definition processSeverityDistribution (crashes : list row) : list (string * nat) :=
  [("fatal", length (List.filter is_fatal crashes));
   ("injury", length (List.filter is_injury crashes));
   ("property", length (List.filter is_property crashes))].

(** A month of [monthlyData]; [Array(12).fill(0).map(() => ({...}))]
    gives each slot an object of its own. *)
Record month : Type := {
  total : nat;
  fatal : nat;
  injury : nat
}.

Definition month_guard (crash : row) : bool :=
  js_ge (field crash "CRASH_MONTH") (Fin 1)
  && js_le (field crash "CRASH_MONTH") (Fin 12).

(** The body of the [forEach] of [processMonthlyTrends].  [None] is the
    [TypeError] of [monthlyData[idx].total] when [monthlyData[idx]] is
    [undefined]. *)
Definition count_month (monthlyData : list month) (crash : row)
  : option (list month) :=
  if month_guard crash then
    let idx := num_sub (ToNumber (field crash "CRASH_MONTH")) (Fin 1) in
    match array_index (NumberToString idx) with
    | Some i =>
        match monthlyData !! N.to_nat i with
        | Some m =>
            let m1 := {| total := S (total m); fatal := fatal m; injury := injury m |} in
            let m2 :=
              if js_gt (field crash "FATAL_COUNT") (Fin 0)
              then {| total := total m1; fatal := S (fatal m1); injury := injury m1 |}
              else m1 in
            let m3 :=
              if js_gt (field crash "INJURY_COUNT") (Fin 0)
              then {| total := total m2; fatal := fatal m2; injury := S (injury m2) |}
              else m2 in
            Some (<[N.to_nat i := m3]> monthlyData)
        | None => None
        end
    | None => None
    end
  else Some monthlyData.

Fixpoint count_months (monthlyData : list month) (crashes : list row)
  : option (list month) :=
  match crashes with
  | [] => Some monthlyData
  | crash :: rest =>
      match count_month monthlyData crash with
      | Some monthlyData' => count_months monthlyData' rest
      | None => None
      end
  end.

(** [processMonthlyTrends]: the twelve months in calendar order, or
    [None] when the loop throws.  The [month] label added by the final
    [.map] depends on the locale and is left out. *)
Definition processMonthlyTrends (crashes : list row) : option (list month) :=
  count_months (replicate 12 {| total := 0; fatal := 0; injury := 0 |}) crashes.

(** The own properties of [weatherMap]. *)
Definition weatherMap : gmap string string :=
  list_to_map
    [("1", "Clear"); ("2", "Cloudy"); ("3", "Rain"); ("4", "Snow");
     ("5", "Sleet/Hail"); ("6", "Fog"); ("7", "Rain & Fog"); ("8", "Snow & Fog");
     ("98", "Other"); ("99", "Unknown")].

(** What [weatherMap[crash.WEATHER1] || 'Unknown'] evaluates to: a label,
    or the member of [Object.prototype] that the key reaches.  Such a
    member then serves as a property key of [weatherCounts] through its
    conversion to a text (the source text of a native function, or
    [[object Object]]), which differs from member to member, from every
    label and from every name of [Object.prototype]. *)
Inductive weather : Type :=
  | Label (s : string)
  | Inherited (name : string).

#[global] Instance weather_eq_dec : EqDecision weather.
Proof. solve_decision. Defined.

Definition weather_of (c : cell) : weather :=
  let key := ToPropertyKey c in
  match weatherMap !! key with
  | Some label => Label label
  | None =>
      if existsb (String.eqb key) CrashMapFiltered.object_prototype_names
      then Inherited key
      else Label "Unknown"
  end.

(** [weatherCounts[weather] = (weatherCounts[weather] || 0) + 1] on the
    properties of [weatherCounts] in the order of their creation. *)
Fixpoint bump (weatherCounts : list (weather * nat)) (w : weather)
  : list (weather * nat) :=
  match weatherCounts with
  | [] => [(w, 1%nat)]
  | (w', n) :: rest =>
      if decide (w' = w) then (w', S n) :: rest else (w', n) :: bump rest w
  end.

(** [weatherCounts] after the [forEach]; no key of it is an array index,
    so [Object.entries] lists it in this order. *)
Definition weatherCounts (crashes : list row) : list (weather * nat) :=
  fold_left (fun counts crash => bump counts (weather_of (field crash "WEATHER1")))
    crashes [].

(** [.sort((a, b) => b.count - a.count)]: the sort is stable, so an entry
    goes in front of the sorted later entries whose count is not larger. *)
Fixpoint insert_desc (x : weather * nat) (l : list (weather * nat))
  : list (weather * nat) :=
  match l with
  | [] => [x]
  | y :: t => if (snd y <=? snd x)%nat then x :: y :: t else y :: insert_desc x t
  end.

Definition sort_desc (l : list (weather * nat)) : list (weather * nat) :=
  fold_right insert_desc [] l.

(** [processWeatherDistribution]: a list of [{weather, count}]. *)
Definition processWeatherDistribution (crashes : list row) : list (weather * nat) :=
  take 10 (sort_desc (weatherCounts crashes)).

End AnalyticsPanel.

(* ===================================================================== *)
(** * The predictions container: the 24-hour batch risk query             *)
(* ===================================================================== *)

Module PredictionsContainer.

(** A [Date], in whole hours of local time since an epoch.  Minutes and
    below are untouched by [setHours] and [getHours] and are left out;
    the local calendar is taken without daylight-saving shifts. *)
Definition getHours (date : Z) : Z := (date mod 24)%Z.

(** [date.setHours(h)]: an hour outside [0..23] rolls over into the
    neighbouring days. *)
Definition setHours (date : Z) (h : Z) : Z := (date - date mod 24 + h)%Z.

(** The [data] of a response of [/api/v1/predict/risk]. *)
Abbreviation response := (gmap string cell).

(** The [i]-th callback of [Array.from] up to its [await]: the time stamp
    it requests, from the clock it reads. *)
Definition requested (now : Z) (i : nat) : Z :=
  setHours now (getHours now + Z.of_nat i).

(** The callback after its [await]: [{...hourResponse.data, hour: timestamp.getHours()}]. *)
Definition tagged (timestamp : Z) (data : response) : response :=
  <["hour" := Num (Fin (inject_Z (getHours timestamp)))]> data.

(** The batch in flight: the time stamp of each of the 24 callbacks, and
    the value array of [Promise.all], one slot per callback. *)
Record batch : Type := {
  timestamps : list Z;
  values : list (option response)
}.

(** [Array.from({ length: 24 }, async (_, i) => ...)] run up to the
    [await]s; [clock i] is what [new Date()] reads in callback [i]. *)
Definition dispatch (clock : nat -> Z) : batch :=
  {| timestamps := List.map (fun i => requested (clock i) i) (seq 0 24);
     values := replicate 24 None |}.

(** The response of request [i] arrives: its callback resumes and its
    promise is fulfilled, which fills slot [i] of [Promise.all]. *)
Definition arrive (b : batch) (arrival : nat * response) : batch :=
  let '(i, data) := arrival in
  match timestamps b !! i with
  | Some timestamp =>
      {| timestamps := timestamps b;
         values := <[i := Some (tagged timestamp data)]> (values b) |}
  | None => b
  end.

(** [Promise.all] is fulfilled with its value array once every slot is
    filled. *)
Definition fulfilled (b : batch) : option (list response) :=
  mapM id (values b).

(** The batch of [handleLocationSelect], for responses that arrive in the
    order of [arrivals]: the array passed to [setPredictions], or [None]
    while a request is unanswered.  A rejected request, which makes
    [Promise.all] reject and leaves the predictions as they were, is not
    part of [arrivals]. *)
Definition hourlyPredictions (clock : nat -> Z) (arrivals : list (nat * response))
  : option (list response) :=
  fulfilled (fold_left arrive arrivals (dispatch clock)).

End PredictionsContainer.

(* ===================================================================== *)
(** * The statistics cards                                                *)
(* ===================================================================== *)

(** The [CrashStatistics] component ([src/unnamed/part_004]). *)

Module CrashStatistics.

Record stats : Type := {
  totalCrashes : nat;
  fatalCrashes : nat;
  injuryCrashes : nat;
  vehicleCount : nat;
  totalInjuries : nat
}.

(** [newStats], from the three parsed files; [n || 0] is [n] for the
    length [n] of an array. *)
Definition newStats (crashes vehicles persons : list row) : stats :=
  {| totalCrashes := length crashes;
     fatalCrashes :=
       length (List.filter (fun crash => js_gt (field crash "FATAL_COUNT") (Fin 0)) crashes);
     injuryCrashes :=
       length (List.filter (fun crash => js_gt (field crash "INJURY_COUNT") (Fin 0)) crashes);
     vehicleCount := length vehicles;
     totalInjuries :=
       length (List.filter (fun person => js_gt (field person "INJ_SEVERITY") (Fin 0))
                 persons) |}.

End CrashStatistics.

(* ===================================================================== *)
(** * The risk prediction panel                                           *)
(* ===================================================================== *)

(** The [RiskPredictionPanel] component that charts the predictions of
    the container ([src/unnamed/part_002]). *)

Module RiskPredictionPanel.

(** An entry of [hourlyRiskData]. *)
Record bar : Type := {
  hour : string;
  risk : number;
  riskLevel : cell
}.

(** [{ risk_level: 'LOW', probability: 0 }]. *)
Definition fallback : gmap string cell :=
  {[ "risk_level" := Str "LOW"; "probability" := Num (Fin 0) ]}.

(** [predictions.find(p => p.hour === hour)]. *)
Definition find_hour (predictions : list (gmap string cell)) (hour : nat)
  : option (gmap string cell) :=
  List.find (fun p => strict_eq (field p "hour") (Fin (inject_Z (Z.of_nat hour))))
    predictions.

(** The callback of [Array.from({ length: 24 }, (_, hour) => ...)]; a
    prediction found is an object, so [||] keeps it. *)
Definition bar_of (predictions : list (gmap string cell)) (hour : nat) : bar :=
  let risk := default fallback (find_hour predictions hour) in
  {| hour := pretty hour +:+ ":00";
     risk := js_mul (field risk "probability") (Num (Fin 100));
     riskLevel := field risk "risk_level" |}.

Definition hourlyRiskData (predictions : list (gmap string cell)) : list bar :=
  List.map (bar_of predictions) (seq 0 24).

(** A value of the accumulator of [riskDistribution]: a count, or, once
    the key reached a member of [Object.prototype], the source text of
    that member followed by as many [1]s as it was added to. *)
Inductive tally : Type :=
  | Count (n : nat)
  | Spoilt (member : string) (ones : nat).

Fixpoint get_own (acc : list (string * tally)) (key : string) : option tally :=
  match acc with
  | [] => None
  | (k, v) :: rest => if String.eqb k key then Some v else get_own rest key
  end.

(** [acc[key] = v] on the own properties of [acc], in the order of their
    creation. *)
Fixpoint set_own (acc : list (string * tally)) (key : string) (v : tally)
  : list (string * tally) :=
  match acc with
  | [] => [(key, v)]
  | (k, w) :: rest =>
      if String.eqb k key then (k, v) :: rest else (k, w) :: set_own rest key v
  end.

(** The callback of [reduce]: [acc[p.risk_level] = (acc[p.risk_level] || 0) + 1].
    A key that [acc] does not own reaches [Object.prototype]: the member
    found there is truthy and [+ 1] appends to its text; the assignment
    to [__proto__] goes to the setter, which ignores a text. *)
Definition add_level (acc : list (string * tally)) (p : gmap string cell)
  : list (string * tally) :=
  let key := ToPropertyKey (field p "risk_level") in
  match get_own acc key with
  | Some (Count n) => set_own acc key (Count (S n))
  | Some (Spoilt member ones) => set_own acc key (Spoilt member (S ones))
  | None =>
      if String.eqb key "__proto__" then acc
      else if existsb (String.eqb key) CrashMapFiltered.object_prototype_names
      then set_own acc key (Spoilt key 1)
      else set_own acc key (Count 1)
  end.

(** Insertion among entries in ascending order of their array index. *)
Fixpoint insert_index (x : N * (string * tally)) (l : list (N * (string * tally)))
  : list (N * (string * tally)) :=
  match l with
  | [] => [x]
  | y :: t => if (fst x <=? fst y)%N then x :: y :: t else y :: insert_index x t
  end.

(** [Object.entries]: the keys that are array indices in ascending
    order, then the other keys in the order of their creation. *)
Definition entries (acc : list (string * tally)) : list (string * tally) :=
  let indexed :=
    omap (fun e => match array_index (fst e) with
                   | Some i => Some (i, e)
                   | None => None
                   end) acc in
  let named :=
    List.filter (fun e => match array_index (fst e) with
                          | Some _ => false
                          | None => true
                          end) acc in
  (List.map snd (fold_right insert_index [] indexed) ++ named)%list.

(** [riskDistribution]: a list of [{name, value}]. *)
Definition riskDistribution (predictions : list (gmap string cell))
  : list (string * tally) :=
  entries (fold_left add_level predictions []).

End RiskPredictionPanel.

(* ===================================================================== *)
(** * Hotspots                                                            *)
(* ===================================================================== *)

(** The hotspot map of [components/HotspotMap.jsx] and the hotspot panel
    ([src/unnamed/part_005]). *)

Module Hotspot.

(** [getRiskColor] of the panel. *)
Definition getRiskColor (score : cell) : string :=
  if js_gt score (Fin (7 # 10)) then "text-red-600"
  else if js_gt score (Fin (3 # 10)) then "text-yellow-600"
  else "text-green-600".

(** [getFillColor] of the scatter plot of hotspot centres. *)
Definition getFillColor (risk_score : cell) : list Z :=
  (if js_gt risk_score (Fin (7 # 10)) then [255; 0; 0]
   else if js_gt risk_score (Fin (3 # 10)) then [255; 140; 0]
   else [255; 255; 0])%Z.

(** The state of the map that [fetchHotspots] writes. *)
Record state (hotspot : Type) : Type := {
  hotspots : list hotspot;
  loading : bool;
  error : option string
}.

Arguments hotspots {hotspot}.
Arguments loading {hotspot}.
Arguments error {hotspot}.

(** What a call of [fetchHotspots] does to the state: it starts, and
    later its request is answered or fails. *)
Inductive event (hotspot : Type) : Type :=
  | Started
  | Answered (data : list hotspot)
  | Failed (message : string).

Arguments Started {hotspot}.
Arguments Answered {hotspot}.
Arguments Failed {hotspot}.

(** An answer that carries no list of hotspots is outside the embedding. *)
Definition step {hotspot : Type} (st : state hotspot) (ev : event hotspot)
  : state hotspot :=
  match ev with
  | Started => {| hotspots := hotspots st; loading := true; error := error st |}
  | Answered data => {| hotspots := data; loading := false; error := error st |}
  | Failed message =>
      {| hotspots := hotspots st; loading := false; error := Some message |}
  end.

(** The state after the events of any number of calls, in the order in
    which they happen. *)
Definition run {hotspot : Type} (events : list (event hotspot)) (st : state hotspot)
  : state hotspot :=
  fold_left step events st.

End Hotspot.

(* ===================================================================== *)
(** * Vocabulary of the specification and sample data                     *)
(* ===================================================================== *)

Module Spec.

(** A coordinate that is present and numeric. *)
Definition present_numeric (c : cell) : bool :=
  match c with
  | Num (Fin _) | Num (Inf _) => true
  | _ => false
  end.

(** A count column read as the specification does: its number, and [0]
    when there is none. *)
Definition count_or_zero (c : cell) : Q :=
  match c with
  | Num (Fin q) => q
  | _ => 0
  end.

(** A count column that is absent, blank or a finite number. *)
Definition count_of (c : cell) : option Q :=
  match c with
  | Undefined | Null => Some 0
  | Num (Fin q) => Some q
  | _ => None
  end.

(** A cell that holds the hour [h]: the number, or the text that spells it. *)
Definition cell_is (h : nat) (c : cell) : bool :=
  match c with
  | Num (Fin q) => Qeq_bool q (inject_Z (Z.of_nat h))
  | Str s => String.eqb s (pretty h)
  | _ => false
  end.

(** A crash whose [HOUR_OF_DAY] is [h]. *)
Definition hour_is (h : nat) (crash : row) : bool :=
  cell_is h (field crash "HOUR_OF_DAY").

(** The labels of the 24 hours of the day, in order. *)
Definition hour_labels : list string :=
  ["00:00"; "01:00"; "02:00"; "03:00"; "04:00"; "05:00"; "06:00"; "07:00";
   "08:00"; "09:00"; "10:00"; "11:00"; "12:00"; "13:00"; "14:00"; "15:00";
   "16:00"; "17:00"; "18:00"; "19:00"; "20:00"; "21:00"; "22:00"; "23:00"].

(** The flag rows that the key [k] matches, in source order. *)
Definition matching (k : string) (flags : list row) : list row :=
  List.filter (fun f => String.eqb (ToPropertyKey (field f "CRN")) k) flags.

(** The same, among the rows whose [CRN] is truthy. *)
Definition matching_truthy (k : string) (flags : list row) : list row :=
  List.filter
    (fun f => ToBoolean (field f "CRN")
              && String.eqb (ToPropertyKey (field f "CRN")) k) flags.

(** A character of the spelling of a finite number or of a fraction. *)
Definition numeric_char (a : ascii) : bool :=
  match digit_of 10 a with
  | Some _ => true
  | None =>
      (Ascii.eqb a "." || Ascii.eqb a "e" || Ascii.eqb a "+"
       || Ascii.eqb a "-" || Ascii.eqb a "/")%char
  end.

(** A cell that holds a text. *)
Definition is_text (c : cell) : bool :=
  match c with
  | Str _ => true
  | _ => false
  end.

(** A key that reaches nothing on [Object.prototype]. *)
Definition ordinary (k : string) : bool :=
  negb (existsb (String.eqb k) CrashMapFiltered.object_prototype_names).

(** The batch of the specification: slot [h] holds the prediction whose
    [hour] is [h]. *)
Definition hour_indexed (result : list (gmap string cell)) : Prop :=
  forall h, (h < 24)%nat ->
    exists p, result !! h = Some p
              /\ strict_eq (field p "hour") (Fin (inject_Z (Z.of_nat h))) = true.

(** A month cell that converts to a whole number, when to a finite one. *)
Definition whole_month (crash : row) : Prop :=
  forall q, ToNumber (field crash "CRASH_MONTH") = Fin q ->
            exists z : Z, q == inject_Z z.

(** A record whose two severity counts are finite numbers, not negative. *)
Definition counted (crash : row) : Prop :=
  exists f i, field crash "FATAL_COUNT" = Num (Fin f)
              /\ field crash "INJURY_COUNT" = Num (Fin i)
              /\ 0 <= f /\ 0 <= i.

(** A record that some bucket of the severity distribution counts. *)
Definition classified (c : row) : bool :=
  AnalyticsPanel.is_fatal c || AnalyticsPanel.is_injury c || AnalyticsPanel.is_property c.

(** Within a month, the fatal and the injury counts are at most the total. *)
Definition bounded (m : AnalyticsPanel.month) : Prop :=
  (AnalyticsPanel.fatal m <= AnalyticsPanel.total m)%nat
  /\ (AnalyticsPanel.injury m <= AnalyticsPanel.total m)%nat.

(** A slot of the batch that holds a response, tagged with the hour of
    the time stamp requested for it at dispatch. *)
Definition filled (b : PredictionsContainer.batch) (i : nat) : Prop :=
  exists timestamp data,
    PredictionsContainer.timestamps b !! i = Some timestamp
    /\ PredictionsContainer.values b !! i
       = Some (Some (PredictionsContainer.tagged timestamp data)).

Definition time_buckets : list string := ["morning"; "afternoon"; "evening"; "night"].

(** A record whose hour lies in [[0,24)]. *)
Definition valid_hour (d : CrashMapFiltered.enriched) : bool :=
  js_ge (field (CrashMapFiltered.crash d) "HOUR_OF_DAY") (Fin 0)
  && js_lt (field (CrashMapFiltered.crash d) "HOUR_OF_DAY") (Fin 24).

(** A coordinate that is not present (absent column, blank cell). *)
Definition missing (c : cell) : bool :=
  match c with
  | Undefined | Null => true
  | _ => false
  end.

(** A coordinate the filtered map accepts: truthy, and a number after
    conversion. *)
Definition usable (c : cell) : bool := ToBoolean c && negb (isNaN c).

(** What such a coordinate is: a number other than zero, [true], or a
    text that reads as a number. *)
Definition coordinate (c : cell) : Prop :=
  (exists q, c = Num (Fin q) /\ ~ q == 0)
  \/ (exists s, c = Num (Inf s))
  \/ c = Bool true
  \/ (exists s, c = Str s /\ s <> "" /\ StringToNumber s <> NaN).

(** A flag row that [flagLookup] stores. *)
Definition stored (flag : row) : bool := ToBoolean (field flag "CRN").

(** What a record of the filtered map owes to the crash file alone. *)
Definition of_crash (e : CrashMapFiltered.enriched)
  : row * number * (number * number) :=
  (CrashMapFiltered.crash e, CrashMapFiltered.weight e, CrashMapFiltered.position e).

(** A prediction whose risk level is filed under the key [key]. *)
Definition has_level (key : string) (p : gmap string cell) : bool :=
  String.eqb (ToPropertyKey (field p "risk_level")) key.

(** The messages of the failed requests, and the data of the answered
    ones, in the order of the events. *)
Definition failures {hotspot : Type} (events : list (Hotspot.event hotspot))
  : list string :=
  omap (fun ev => match ev with
                  | Hotspot.Failed message => Some message
                  | _ => None
                  end) events.

Definition answers {hotspot : Type} (events : list (Hotspot.event hotspot))
  : list (list hotspot) :=
  omap (fun ev => match ev with
                  | Hotspot.Answered data => Some data
                  | _ => None
                  end) events.

(** A crash of month [m], as [processMonthlyTrends] reads the month. *)
Definition in_month (m : nat) (crash : row) : bool :=
  match ToNumber (field crash "CRASH_MONTH") with
  | Fin q => Qeq_bool q (inject_Z (Z.of_nat m))
  | _ => false
  end.

(** A crash whose month lies within [[1,12]] and is no whole number. *)
Definition fractional_month (crash : row) : Prop :=
  AnalyticsPanel.month_guard crash = true /\ ~ whole_month crash.

(** A crash that holds one of the 24 hours. *)
Definition some_hour (crash : row) : bool :=
  existsb (fun h => hour_is h crash) (seq 0 24).

(** The count [weatherCounts] holds for a weather. *)
Fixpoint tally (counts : list (AnalyticsPanel.weather * nat)) (w : AnalyticsPanel.weather)
  : nat :=
  match counts with
  | [] => 0%nat
  | (w', n) :: rest => if decide (w' = w) then n else tally rest w
  end.

(** A crash of the weather [w]. *)
Definition has_weather (w : AnalyticsPanel.weather) (crash : row) : bool :=
  bool_decide (AnalyticsPanel.weather_of (field crash "WEATHER1") = w).

(** The ten labels of the weather chart. *)
Definition weather_labels : list string :=
  ["Clear"; "Cloudy"; "Rain"; "Snow"; "Sleet/Hail"; "Fog"; "Rain & Fog";
   "Snow & Fog"; "Other"; "Unknown"].

(** Entries in descending order of their counts. *)
Definition descending (l : list (AnalyticsPanel.weather * nat)) : Prop :=
  StronglySorted (fun a b => (snd b <= snd a)%nat) l.

End Spec.

Module Samples.

Definition crash1 : row :=
  {[ "CRN" := Num (Fin 1); "DEC_LAT" := Num (Fin 41.2); "DEC_LONG" := Num (Fin (-77.1));
     "HOUR_OF_DAY" := Num (Fin 8); "CRASH_MONTH" := Num (Fin 3);
     "FATAL_COUNT" := Num (Fin 1); "INJURY_COUNT" := Num (Fin 2) ]}.

(** A row whose fatality cell holds a text that reads as no number. *)
Definition crash_text_count : row := {[ "FATAL_COUNT" := Str "N/A" ]}.

(** A row with a fatality and injuries, joined with no flags. *)
Definition enriched1 : CrashMapFiltered.enriched :=
  CrashMapFiltered.enrich CrashMapFiltered.empty_lookup crash1.

(** A row located on the equator. *)
Definition crash_equator : row :=
  {[ "CRN" := Num (Fin 7); "DEC_LAT" := Num (Fin 0); "DEC_LONG" := Num (Fin (-77.1)) ]}.

(** A row whose fatality cell is blank, with no injury. *)
Definition crash_blank_fatal : row :=
  {[ "CRN" := Num (Fin 3); "FATAL_COUNT" := Null; "INJURY_COUNT" := Num (Fin 0) ]}.

(** A crash whose record number is the text [constructor]. *)
Definition crash_constructor : row :=
  {[ "CRN" := Str "constructor"; "DEC_LAT" := Num (Fin 41.2);
     "DEC_LONG" := Num (Fin (-77.1)) ]}.

(** A flag row and a crash row that share the record number 0. *)
Definition flag_zero : row := {[ "CRN" := Num (Fin 0); "INTERSTATE" := Num (Fin 1) ]}.
Definition crash_zero : row :=
  {[ "CRN" := Num (Fin 0); "DEC_LAT" := Num (Fin 41.2); "DEC_LONG" := Num (Fin (-77.1)) ]}.

(** Two flag rows for the record number 1, and one for 2. *)
Definition flag1_old : row := {[ "CRN" := Num (Fin 1); "INTERSTATE" := Num (Fin 0) ]}.
Definition flag1_new : row := {[ "CRN" := Num (Fin 1); "INTERSTATE" := Num (Fin 1) ]}.
Definition flag2 : row := {[ "CRN" := Num (Fin 2); "INTERSTATE" := Num (Fin 0) ]}.

(** Empty responses to the 24 requests, the last request answered first. *)
Definition reverse_arrivals : list (nat * gmap string cell) :=
  rev (List.map (fun i => (i, ∅)) (seq 0 24)).

(** Three crashes in the rain (code 3), one in clear weather (code 1),
    one whose weather cell is blank. *)
Definition crash_weather (code : cell) (month : Q) : row :=
  {[ "WEATHER1" := code; "CRASH_MONTH" := Num (Fin month) ]}.

Definition weather_crashes : list row :=
  [crash_weather (Num (Fin 3)) 1; crash_weather (Num (Fin 1)) 1;
   crash_weather (Num (Fin 3)) 2; crash_weather Null 2;
   crash_weather (Num (Fin 3)) 2].

(** Responses to the 24 requests, the last request answered first; the
    response to request [i] carries the probability [i/100]. *)
Definition graded (i : nat) : gmap string cell :=
  {[ "risk_level" := Str "HIGH"; "probability" := Num (Fin (Z.of_nat i # 100)) ]}.

Definition graded_arrivals : list (nat * gmap string cell) :=
  rev (List.map (fun i => (i, graded i)) (seq 0 24)).

(** A record of the filtered map whose hour cell is blank. *)
Definition enriched_blank_hour : CrashMapFiltered.enriched :=
  CrashMapFiltered.enrich CrashMapFiltered.empty_lookup
    {[ "DEC_LAT" := Num (Fin 41.2); "DEC_LONG" := Num (Fin (-77.1));
       "HOUR_OF_DAY" := Null ]}.

(** A flag row whose record number is blank. *)
Definition flag_blank : row := {[ "CRN" := Null; "INTERSTATE" := Num (Fin 1) ]}.

(** The ten codes of the table twice each, and one crash whose weather
    cell is the text [valueOf]. *)
Definition crowded_weather : list row :=
  (List.map (fun code => crash_weather (Num (Fin (inject_Z code))) 1)
     [1; 2; 3; 4; 5; 6; 7; 8; 98; 99; 1; 2; 3; 4; 5; 6; 7; 8; 98; 99]%Z
   ++ [crash_weather (Str "valueOf") 1])%list.

(** A crash whose month reads 1.5. *)
Definition crash_mid_month : row := {[ "CRASH_MONTH" := Num (Fin 1.5) ]}.

End Samples.

(* ===================================================================== *)
(** * Facts about the operators                                           *)
(* ===================================================================== *)

(** ** Texts of digits *)

Module DigitFacts.

(** A decimal digit is no white space, no sign, no radix letter and not
    the first letter of [Infinity]. *)
Lemma digit_char a d :
  digit_of 10 a = Some d ->
  is_ws a = false
  /\ Ascii.eqb a "I" = false
  /\ (Ascii.eqb a "x" || Ascii.eqb a "X" = false)
  /\ (Ascii.eqb a "o" || Ascii.eqb a "O" = false)
  /\ (Ascii.eqb a "b" || Ascii.eqb a "B" = false)
  /\ split_sign (a :: []) = (false, a :: []).
Proof.
  destruct a as [[] [] [] [] [] [] [] []]; vm_compute; intros H;
    try discriminate; repeat split.
Qed.

Lemma split_sign_digit a d t :
  digit_of 10 a = Some d -> split_sign (a :: t) = (false, a :: t).
Proof.
  destruct a as [[] [] [] [] [] [] [] []]; vm_compute; intros H;
    try discriminate; reflexivity.
Qed.

(** When [span_digits] consumes the whole text, every character is a
    digit. *)
Lemma span_digits_all radix l : forall ds,
  span_digits radix l = (ds, []) ->
  Forall (fun a => exists d, digit_of radix a = Some d) l.
Proof.
  induction l as [|a l IH]; intros ds H; [constructor|].
  simpl in H. destruct (digit_of radix a) as [d|] eqn:Ed; [|discriminate].
  destruct (span_digits radix l) as [ds' r] eqn:Es.
  injection H as <- ->. constructor; [eauto | eapply IH; reflexivity].
Qed.

Lemma trim_left_id l :
  Forall (fun a => is_ws a = false) l -> trim_left l = l.
Proof. intros H. destruct H as [|a l Ha _]; simpl; [reflexivity | now rewrite Ha]. Qed.

Lemma trim_id l : Forall (fun a => is_ws a = false) l -> trim l = l.
Proof.
  intros H. unfold trim. rewrite (trim_left_id l H).
  rewrite trim_left_id; [apply rev_involutive|].
  now apply List.Forall_rev.
Qed.

(** A text of decimal digits converts to the number it spells. *)
Lemma StringToNumber_digits s n :
  all_digits 10 (chars s) = Some n ->
  exists q, StringToNumber s = Fin q /\ q == inject_Z (Z.of_N n).
Proof.
  unfold all_digits. destruct (span_digits 10 (chars s)) as [ds r] eqn:Es.
  destruct ds as [|d ds]; [discriminate|]. destruct r; [|discriminate].
  intros H. injection H as <-.
  pose proof (span_digits_all _ _ _ Es) as Hall.
  assert (Hws : Forall (fun a => is_ws a = false) (chars s)).
  { eapply Forall_impl; [exact Hall|]. intros a [x Hx]. now apply (digit_char a x). }
  unfold StringToNumber. rewrite (trim_id _ Hws).
  destruct (chars s) as [|a l] eqn:El; [discriminate|].
  inversion Hall as [|? ? [da Ha] Hl]; subst.
  assert (Hnd : non_decimal (a :: l) = None).
  { unfold non_decimal. destruct a as [[] [] [] [] [] [] [] []]; try reflexivity.
    destruct l as [|p t]; [reflexivity|].
    inversion Hl as [|? ? [dp Hp] _]; subst.
    destruct (digit_char p dp Hp) as (_ & _ & -> & -> & -> & _). reflexivity. }
  rewrite Hnd, (split_sign_digit a da l Ha).
  assert (Hinf : String.eqb (string_of_list_ascii (a :: l)) "Infinity" = false).
  { simpl. destruct (digit_char a da Ha) as (_ & -> & _). reflexivity. }
  rewrite Hinf. unfold unsigned_decimal. rewrite Es. simpl exponent. cbv iota beta.
  rewrite app_nil_r. eexists. split; [reflexivity|].
  simpl length. change (0 - Z.of_nat 0)%Z with 0%Z. simpl Qpower. ring.
Qed.

(** A text with a character that is no digit is no array index. *)
Lemma span_digits_rest radix l c :
  In c l -> digit_of radix c = None -> snd (span_digits radix l) <> [].
Proof.
  induction l as [|a l IH]; intros Hin Hc; [destruct Hin|].
  simpl. destruct (digit_of radix a) eqn:Ea; [|discriminate].
  destruct Hin as [-> | Hin]; [congruence|].
  specialize (IH Hin Hc). destruct (span_digits radix l). exact IH.
Qed.

Lemma not_all_digits radix l c :
  In c l -> digit_of radix c = None -> all_digits radix l = None.
Proof.
  intros Hin Hc. unfold all_digits.
  pose proof (span_digits_rest radix l c Hin Hc) as H.
  destruct (span_digits radix l) as [[|d ds] [|a r]]; simpl in H; congruence.
Qed.

Lemma not_index l c :
  In c l -> digit_of 10 c = None -> array_index (string_of_list_ascii l) = None.
Proof.
  intros Hin Hc. unfold array_index, chars.
  rewrite list_ascii_of_string_of_list_ascii.
  now rewrite (not_all_digits 10 l c Hin Hc).
Qed.

End DigitFacts.

(** ** The spelling of numbers that are not whole *)

Module RenderFacts.
Import DigitFacts.

Lemma decimal_places_spec fuel a b : forall j0 m j,
  decimal_places fuel a b j0 = Some (m, j) ->
  (j0 <= j)%nat
  /\ (a * 10 ^ Z.of_nat j = m * Zpos b)%Z
  /\ forall j', (j0 <= j' < j)%nat -> ((a * 10 ^ Z.of_nat j') mod Zpos b <> 0)%Z.
Proof.
  induction fuel as [|fuel IH]; intros j0 m j H; [discriminate|].
  simpl in H.
  destruct ((a * 10 ^ Z.of_nat j0) mod Zpos b =? 0)%Z eqn:E.
  - injection H as <- <-. apply Z.eqb_eq in E.
    split; [lia|]. split; [|intros j' Hj; lia].
    apply Z.div_exact in E; [lia | discriminate].
  - apply Z.eqb_neq in E. destruct (IH _ _ _ H) as (H1 & H2 & H3).
    split; [lia|]. split; [exact H2|].
    intros j' Hj. destruct (decide (j' = j0)) as [-> | Hne]; [exact E|].
    apply H3. lia.
Qed.

Lemma reduced_coprime q : Z.gcd (Qnum (Qred q)) (Zpos (Qden (Qred q))) = 1%Z.
Proof. apply (Qcanon.Qred_iff (Qred q)). apply Qcanon.Qred_involutive. Qed.

(** In a reduced fraction that is not whole, the least number of decimal
    places is positive and the digits end in no zero. *)
Lemma decimal_places_fraction fuel a b m j :
  (0 < a)%Z -> Z.gcd a (Zpos b) = 1%Z -> b <> 1%positive ->
  decimal_places fuel a b 0 = Some (m, j) ->
  (1 <= j)%nat /\ (m mod 10 <> 0)%Z.
Proof.
  intros Ha Hg Hb H. destruct (decimal_places_spec _ _ _ _ _ _ H) as (_ & Hm & Hmin).
  assert (Hj : (1 <= j)%nat).
  { destruct j as [|j]; [|lia]. exfalso. simpl in Hm.
    assert (Hd : (Zpos b | 1)%Z).
    { rewrite <- Hg. apply Z.gcd_greatest; [|reflexivity].
      exists m. lia. }
    apply Z.divide_1_r_nonneg in Hd; [|lia]. apply Hb. congruence. }
  split; [exact Hj|]. intros Hz.
  apply (Hmin (j - 1)%nat); [lia|].
  apply Z.mod_divide; [discriminate|].
  apply Z.mod_divide in Hz; [|discriminate]. destruct Hz as [m' ->].
  exists m'.
  replace (Z.of_nat j) with (Z.of_nat (j - 1) + 1)%Z in Hm by lia.
  rewrite Z.pow_add_r in Hm by lia. lia.
Qed.

Lemma strip_zeros_none fuel m : (m mod 10 <> 0)%Z -> strip_zeros fuel m 0 = (m, 0%nat).
Proof.
  intros H. destruct fuel; simpl; [reflexivity|].
  apply Z.eqb_neq in H. now rewrite H.
Qed.

(** Digits placed with fewer places before the point than there are
    digits show a point or an exponent. *)
Lemma format_digits_point ds n :
  (n < Z.of_nat (length ds))%Z ->
  exists c, In c (format_digits ds n) /\ digit_of 10 c = None.
Proof.
  intros H. unfold format_digits.
  assert (E1 : ((Z.of_nat (length ds) <=? n) && (n <=? 21) = false)%Z).
  { apply andb_false_iff. left. apply Z.leb_gt. exact H. }
  rewrite E1.
  destruct ((0 <? n) && (n <=? 21))%Z.
  - exists "."%char. split; [|reflexivity].
    apply in_or_app. right. now left.
  - destruct ((-6 <? n) && (n <=? 0))%Z.
    + exists "."%char. split; [|reflexivity]. right. now left.
    + exists "e"%char. split; [|reflexivity].
      apply in_or_app. right. now left.
Qed.

Lemma positive_to_string_fraction a b :
  (0 < a)%Z -> Z.gcd a (Zpos b) = 1%Z -> b <> 1%positive ->
  exists c, In c (positive_to_string a b) /\ digit_of 10 c = None.
Proof.
  intros Ha Hg Hb. unfold positive_to_string.
  destruct (decimal_places (S (Pos.size_nat b)) a b 0) as [[m j]|] eqn:E.
  - destruct (decimal_places_fraction _ _ _ _ _ Ha Hg Hb E) as [Hj Hm].
    rewrite (strip_zeros_none _ m Hm).
    apply format_digits_point. lia.
  - exists "/"%char. split; [|reflexivity].
    apply in_or_app. right. now left.
Qed.

(** A number that is not whole names no array index. *)
Lemma fraction_not_index q :
  Qden (Qred q) <> 1%positive -> array_index (NumberToString (Fin q)) = None.
Proof.
  intros Hb. unfold NumberToString. pose proof (reduced_coprime q) as Hg.
  destruct (Qred q) as [a b]. simpl in *.
  destruct a as [|a|a].
  - exfalso. apply Hb. change (Z.gcd 0 (Zpos b)) with (Zpos b) in Hg.
    now injection Hg.
  - destruct (positive_to_string_fraction (Zpos a) b) as (c & Hin & Hc);
      [lia | exact Hg | exact Hb |].
    exact (not_index _ c Hin Hc).
  - reflexivity.
Qed.

(** A whole number is the numerator of its reduced fraction. *)
Lemma whole_value q :
  Qden (Qred q) = 1%positive -> q == inject_Z (Qnum (Qred q)).
Proof.
  intros H. rewrite <- (Qred_correct q) at 1.
  destruct (Qred q) as [a b]. simpl in *. subst b. reflexivity.
Qed.

End RenderFacts.

Module JSFacts.

Lemma num_lt_Fin p q : num_lt (Fin p) (Fin q) = true <-> p < q.
Proof.
  simpl. rewrite negb_true_iff, <- not_true_iff_false, Qle_bool_iff.
  split; [apply Qnot_le_lt | apply Qlt_not_le].
Qed.

Lemma num_le_Fin p q : num_le (Fin p) (Fin q) = true <-> p <= q.
Proof. simpl. apply Qle_bool_iff. Qed.

Lemma qzero_true q : qzero q = true <-> q == 0.
Proof. unfold qzero. apply Qeq_bool_iff. Qed.

Lemma qzero_false q : qzero q = false <-> ~ q == 0.
Proof. rewrite <- qzero_true. symmetry. apply not_true_iff_false. Qed.

(** The number zero is falsy, whichever fraction spells it. *)
Lemma zero_falsy q : q == 0 -> ToBoolean (Num (Fin q)) = false.
Proof. intros H. simpl. apply negb_false_iff. now apply qzero_true. Qed.

(** A cell within a half-open range of literals holds a finite number
    of that range. *)
Lemma in_range c lo hi :
  js_ge c (Fin lo) && js_lt c (Fin hi) = true <->
  exists q, ToNumber c = Fin q /\ lo <= q /\ q < hi.
Proof.
  unfold js_ge, js_lt. rewrite andb_true_iff. split.
  - intros [H1 H2]. destruct (ToNumber c) as [|[]|q]; try discriminate.
    exists q. split; [reflexivity|].
    split; [now apply num_le_Fin | now apply num_lt_Fin].
  - intros (q & -> & H1 & H2).
    split; [now apply num_le_Fin | now apply num_lt_Fin].
Qed.

Lemma in_range_closed c lo hi :
  js_ge c (Fin lo) && js_le c (Fin hi) = true <->
  exists q, ToNumber c = Fin q /\ lo <= q /\ q <= hi.
Proof.
  unfold js_ge, js_le. rewrite andb_true_iff. split.
  - intros [H1 H2]. destruct (ToNumber c) as [|[]|q]; try discriminate.
    exists q. split; [reflexivity|].
    split; now apply num_le_Fin.
  - intros (q & -> & H1 & H2). split; now apply num_le_Fin.
Qed.

(** Equal numbers are spelled alike. *)
Lemma NumberToString_proper p q :
  p == q -> NumberToString (Fin p) = NumberToString (Fin q).
Proof. intros H. unfold NumberToString. now rewrite (Qred_complete p q H). Qed.

(** The whole numbers below 24 are spelled as the array index they are. *)
Lemma small_index (z : Z) :
  (0 <= z < 24)%Z ->
  array_index (NumberToString (Fin (inject_Z z))) = Some (Z.to_N z).
Proof.
  intros H.
  assert (E : In z [0; 1; 2; 3; 4; 5; 6; 7; 8; 9; 10; 11; 12; 13; 14; 15; 16;
                    17; 18; 19; 20; 21; 22; 23]%Z) by (simpl; lia).
  simpl in E.
  repeat (destruct E as [<- | E]; [vm_compute; reflexivity|]).
  destruct E.
Qed.

End JSFacts.

(* ===================================================================== *)
(** * The filtered crash map: weight and filters                          *)
(* ===================================================================== *)

Module CrashMapFilteredFacts.
Import CrashMapFiltered JSFacts Spec.

(** One term of [calculateWeight]: an absent or blank count contributes
    nothing, a finite one its multiple. *)
Lemma weight_term c v k :
  count_of c = Some v ->
  exists w, js_mul (js_or c (Num (Fin 0))) (Num (Fin k)) = Fin w /\ w == v * k.
Proof.
  destruct c as [| | b | [| s | q] | s]; simpl; intros H; try discriminate;
    injection H as <-.
  - exists (0 * k). split; [reflexivity | reflexivity].
  - exists (0 * k). split; [reflexivity | reflexivity].
  - unfold js_or, js_mul. simpl. destruct (qzero q) eqn:Hz; simpl.
    + apply qzero_true in Hz. exists (0 * k). split; [reflexivity|].
      rewrite Hz. reflexivity.
    + exists (q * k). split; reflexivity.
Qed.


(** C4.  A record whose [INJURY_COUNT] is above zero passes the severity
    filter under the selector [injury], whatever its [FATAL_COUNT]: it is
    in the filtered data for the time range [all], and for any time range
    whose filter it passes. *)
Theorem injury_filter_inclusive (data : list enriched) (t : string) (d : enriched) :
  In d data ->
  js_gt (field (crash d) "INJURY_COUNT") (Fin 0) = true ->
  severityFilter "injury" d = true
  /\ In d (List.filter (severityFilter "injury") data)
  /\ In d (filteredData data "all" "injury")
  /\ (timeFilter t d = true -> In d (filteredData data t "injury")).
Proof.
  intros Hin Hinj.
  assert (Hs : severityFilter "injury" d = true) by (unfold severityFilter; simpl; exact Hinj).
  split; [exact Hs|]. unfold filteredData.
  repeat split; intros; repeat (apply filter_In; split); auto.
Qed.



(** Witness of [injury_filter_inclusive]: a crash with a fatality and
    two injuries is kept by the injury selector. *)
Lemma injury_filter_inclusive_witness :
  js_gt (field (crash Samples.enriched1) "FATAL_COUNT") (Fin 0) = true
  /\ In Samples.enriched1 (filteredData [Samples.enriched1] "all" "injury")
  /\ In Samples.enriched1 (filteredData [Samples.enriched1] "morning" "injury").
Proof.
  split; [vm_compute; reflexivity|].
  destruct (injury_filter_inclusive [Samples.enriched1] "morning" Samples.enriched1)
    as (_ & _ & H1 & H2).
  - left. reflexivity.
  - vm_compute. reflexivity.
  - split; [exact H1|]. apply H2. vm_compute. reflexivity.
Defined.

(** ** Time buckets *)

(** Each bucket is a half-open range of the hour. *)
Ltac bucket_range := unfold timeFilter; simpl; apply in_range.

Lemma timeFilter_morning d :
  timeFilter "morning" d = true <->
  exists q, ToNumber (field (crash d) "HOUR_OF_DAY") = Fin q /\ 6 <= q /\ q < 12.
Proof. bucket_range. Qed.

Lemma timeFilter_afternoon d :
  timeFilter "afternoon" d = true <->
  exists q, ToNumber (field (crash d) "HOUR_OF_DAY") = Fin q /\ 12 <= q /\ q < 18.
Proof. bucket_range. Qed.

Lemma timeFilter_evening d :
  timeFilter "evening" d = true <->
  exists q, ToNumber (field (crash d) "HOUR_OF_DAY") = Fin q /\ 18 <= q /\ q < 24.
Proof. bucket_range. Qed.

Lemma timeFilter_night d :
  timeFilter "night" d = true <->
  exists q, ToNumber (field (crash d) "HOUR_OF_DAY") = Fin q /\ 0 <= q /\ q < 6.
Proof. bucket_range. Qed.

(** Every bucket is a range of the one number the hour cell converts to. *)
Lemma timeFilter_bucket t d :
  In t time_buckets -> timeFilter t d = true ->
  exists q lo hi,
    ToNumber (field (crash d) "HOUR_OF_DAY") = Fin q /\ lo <= q /\ q < hi
    /\ ((t = "morning" /\ lo = 6 /\ hi = 12)
        \/ (t = "afternoon" /\ lo = 12 /\ hi = 18)
        \/ (t = "evening" /\ lo = 18 /\ hi = 24)
        \/ (t = "night" /\ lo = 0 /\ hi = 6)).
Proof.
  intros Ht H. simpl in Ht.
  destruct Ht as [<- | [<- | [<- | [<- | []]]]].
  - apply timeFilter_morning in H as (q & ? & ? & ?). exists q, 6, 12. tauto.
  - apply timeFilter_afternoon in H as (q & ? & ? & ?). exists q, 12, 18. tauto.
  - apply timeFilter_evening in H as (q & ? & ? & ?). exists q, 18, 24. tauto.
  - apply timeFilter_night in H as (q & ? & ? & ?). exists q, 0, 6. tauto.
Qed.

Lemma buckets_disjoint t1 t2 d :
  In t1 time_buckets -> In t2 time_buckets ->
  timeFilter t1 d = true -> timeFilter t2 d = true -> t1 = t2.
Proof.
  intros I1 I2 H1 H2.
  destruct (timeFilter_bucket _ _ I1 H1) as (q & lo & hi & Eq & L1 & U1 & C1).
  destruct (timeFilter_bucket _ _ I2 H2) as (q' & lo' & hi' & Eq' & L2 & U2 & C2).
  rewrite Eq in Eq'. injection Eq' as <-.
  destruct C1 as [(-> & -> & ->) | [(-> & -> & ->) | [(-> & -> & ->) | (-> & -> & ->)]]];
  destruct C2 as [(-> & -> & ->) | [(-> & -> & ->) | [(-> & -> & ->) | (-> & -> & ->)]]];
  try reflexivity; exfalso; lra.
Qed.

Lemma buckets_exhaustive d :
  valid_hour d = true ->
  exists t, In t time_buckets /\ timeFilter t d = true.
Proof.
  intros H. apply in_range in H as (q & Eq & L & U).
  destruct (Qlt_le_dec q 6); [|destruct (Qlt_le_dec q 12); [|destruct (Qlt_le_dec q 18)]].
  - exists "night". split; [simpl; tauto|]. apply timeFilter_night. eauto.
  - exists "morning". split; [simpl; tauto|]. apply timeFilter_morning. eauto.
  - exists "afternoon". split; [simpl; tauto|]. apply timeFilter_afternoon. eauto.
  - exists "evening". split; [simpl; tauto|]. apply timeFilter_evening. eauto.
Qed.

(** C6.  The four time buckets are pairwise disjoint, a record whose
    hour lies in [[0,24)] passes the filter of exactly one of them, and
    for every pair of selectors the filtered data is part of the data. *)
Theorem time_buckets_partition (data : list enriched) (t s : string) (d : enriched) :
  (forall t1 t2, In t1 time_buckets -> In t2 time_buckets -> t1 <> t2 ->
                 ~ (timeFilter t1 d = true /\ timeFilter t2 d = true))
  /\ (valid_hour d = true ->
      exists t0, In t0 time_buckets /\ timeFilter t0 d = true
                 /\ forall t', In t' time_buckets -> timeFilter t' d = true -> t' = t0)
  /\ (In d (filteredData data t s) -> In d data).
Proof.
  split; [|split].
  - intros t1 t2 I1 I2 Hne [H1 H2]. apply Hne. eapply buckets_disjoint; eauto.
  - intros Hv. destruct (buckets_exhaustive d Hv) as (t0 & I0 & H0).
    exists t0. repeat split; auto.
    intros t' I' H'. eapply buckets_disjoint; eauto.
  - unfold filteredData. intros H.
    apply filter_In in H as [H _]. apply filter_In in H as [H _]. exact H.
Qed.

(** Witness of [time_buckets_partition]: a crash at 8 o'clock falls in
    one bucket, and stays in the data under [morning] and [fatal]. *)
Lemma time_buckets_partition_witness :
  (exists t0, In t0 time_buckets /\ timeFilter t0 Samples.enriched1 = true
              /\ forall t', In t' time_buckets ->
                            timeFilter t' Samples.enriched1 = true -> t' = t0)
  /\ In Samples.enriched1 [Samples.enriched1].
Proof.
  destruct (time_buckets_partition [Samples.enriched1] "morning" "fatal" Samples.enriched1)
    as (_ & H1 & H2).
  split.
  - apply H1. vm_compute. reflexivity.
  - apply H2. vm_compute. left. reflexivity.
Defined.

End CrashMapFilteredFacts.

(* ===================================================================== *)
(** * The loaders: which rows reach the map                               *)
(* ===================================================================== *)

Module LoaderFacts.
Import JSFacts Spec.

Lemma isValid_usable (r : row) :
  CrashMapFiltered.isValid r = true <->
  usable (field r "DEC_LAT") = true /\ usable (field r "DEC_LONG") = true.
Proof.
  unfold CrashMapFiltered.isValid, usable. rewrite !andb_true_iff. tauto.
Qed.

(** The rows behind the records of the filtered map. *)
Lemma loaded_rows flagRows crashRows :
  List.map CrashMapFiltered.crash (CrashMapFiltered.loadData flagRows crashRows)
  = List.filter CrashMapFiltered.isValid crashRows.
Proof.
  unfold CrashMapFiltered.loadData.
  generalize (List.filter CrashMapFiltered.isValid crashRows) as l.
  induction l as [|r l IH]; simpl; [reflexivity | now rewrite IH].
Qed.

(** What a usable coordinate can be. *)
Lemma usable_shape c : usable c = true -> coordinate c.
Proof.
  unfold usable, isNaN, coordinate. rewrite andb_true_iff, negb_true_iff.
  destruct c as [| | [] | [| s | q] | s]; simpl; intros [H1 H2]; try discriminate.
  - tauto.
  - right. left. eauto.
  - left. exists q. split; [reflexivity|].
    apply qzero_false. now apply negb_true_iff.
  - right. right. right. exists s. split; [reflexivity|]. split.
    + intros ->. discriminate.
    + intros E. rewrite E in H2. discriminate.
Qed.

Lemma usable_not_missing c : missing c = true -> usable c = false.
Proof. destruct c; simpl; try discriminate; reflexivity. Qed.

Lemma usable_position c : usable c = true -> ToNumber c <> NaN.
Proof.
  unfold usable, isNaN. rewrite andb_true_iff, negb_true_iff.
  intros [_ H] E. rewrite E in H. discriminate.
Qed.

(** C2 (as amended).  A row reaches the filtered map exactly when both
    coordinates are truthy and convert to a number, and the plain map
    exactly when both are truthy; in every record of the filtered map
    both coordinates are a number other than zero, [true] or a text that
    reads as a number, and the position is a pair of numbers other than
    [NaN]; a row with an absent or blank coordinate reaches neither map. *)
Theorem loaded_iff_usable (flagRows crashRows : list row) (r : row) :
  (In r (List.map CrashMapFiltered.crash (CrashMapFiltered.loadData flagRows crashRows))
   <-> In r crashRows
       /\ usable (field r "DEC_LAT") = true /\ usable (field r "DEC_LONG") = true)
  /\ (In r (CrashMap.validRows crashRows)
      <-> In r crashRows
          /\ ToBoolean (field r "DEC_LAT") = true
          /\ ToBoolean (field r "DEC_LONG") = true)
  /\ (forall e, In e (CrashMapFiltered.loadData flagRows crashRows) ->
                coordinate (field (CrashMapFiltered.crash e) "DEC_LAT")
                /\ coordinate (field (CrashMapFiltered.crash e) "DEC_LONG")
                /\ fst (CrashMapFiltered.position e) <> NaN
                /\ snd (CrashMapFiltered.position e) <> NaN)
  /\ (missing (field r "DEC_LAT") = true \/ missing (field r "DEC_LONG") = true ->
      ~ In r (List.map CrashMapFiltered.crash
                (CrashMapFiltered.loadData flagRows crashRows))
      /\ ~ In r (CrashMap.validRows crashRows)).
Proof.
  assert (HA : In r (List.map CrashMapFiltered.crash
                       (CrashMapFiltered.loadData flagRows crashRows))
               <-> In r crashRows
                   /\ usable (field r "DEC_LAT") = true
                   /\ usable (field r "DEC_LONG") = true).
  { rewrite loaded_rows, filter_In, isValid_usable. tauto. }
  assert (HB : In r (CrashMap.validRows crashRows)
               <-> In r crashRows
                   /\ ToBoolean (field r "DEC_LAT") = true
                   /\ ToBoolean (field r "DEC_LONG") = true).
  { unfold CrashMap.validRows. rewrite filter_In, andb_true_iff. tauto. }
  split; [exact HA|]. split; [exact HB|]. split.
  - intros e He. unfold CrashMapFiltered.loadData in He.
    apply in_map_iff in He as (x & <- & Hx).
    apply filter_In in Hx as [_ Hx]. apply isValid_usable in Hx as [H1 H2].
    simpl. repeat split; try now apply usable_shape. all: now apply usable_position.
  - intros Hm. rewrite HA, HB. split; intros (_ & H1 & H2).
    + destruct Hm as [Hm | Hm]; apply usable_not_missing in Hm; congruence.
    + destruct Hm as [Hm | Hm];
        [destruct (field r "DEC_LAT") | destruct (field r "DEC_LONG")];
        simpl in *; discriminate.
Qed.

(** Witness of [loaded_iff_usable]: the sample crash reaches both maps. *)
Lemma loaded_iff_usable_witness :
  In Samples.crash1
     (List.map CrashMapFiltered.crash (CrashMapFiltered.loadData [] [Samples.crash1]))
  /\ In Samples.crash1 (CrashMap.validRows [Samples.crash1]).
Proof.
  destruct (loaded_iff_usable [] [Samples.crash1] Samples.crash1) as (H1 & H2 & _).
  split.
  - apply H1. split; [left; reflexivity|]. split; vm_compute; reflexivity.
  - apply H2. split; [left; reflexivity|]. split; vm_compute; reflexivity.
Defined.

(** C2 (as stated) fails: a row whose latitude is the number 0 has both
    coordinates present and numeric, and reaches neither map. *)
Lemma zero_latitude_not_loaded :
  present_numeric (field Samples.crash_equator "DEC_LAT") = true
  /\ present_numeric (field Samples.crash_equator "DEC_LONG") = true
  /\ In Samples.crash_equator [Samples.crash_equator]
  /\ ~ In Samples.crash_equator
         (List.map CrashMapFiltered.crash
            (CrashMapFiltered.loadData [] [Samples.crash_equator]))
  /\ ~ In Samples.crash_equator (CrashMap.validRows [Samples.crash_equator]).
Proof.
  split; [vm_compute; reflexivity|]. split; [vm_compute; reflexivity|].
  split; [left; reflexivity|].
  split; vm_compute; intros [].
Qed.

(** C10.  A row whose [DEC_LAT] or [DEC_LONG] is the number 0 adds
    nothing to the data of either map, wherever it stands in the file. *)
Theorem zero_coordinate_excluded
    (flagRows before after : list row) (r : row) (q : Q) :
  field r "DEC_LAT" = Num (Fin q) \/ field r "DEC_LONG" = Num (Fin q) ->
  q == 0 ->
  CrashMap.loadData (before ++ r :: after)%list = CrashMap.loadData (before ++ after)%list
  /\ CrashMapFiltered.loadData flagRows (before ++ r :: after)%list
     = CrashMapFiltered.loadData flagRows (before ++ after)%list
  /\ ~ In r (CrashMap.validRows (before ++ r :: after)%list).
Proof.
  intros Hc Hq.
  assert (Ht : ToBoolean (field r "DEC_LAT") && ToBoolean (field r "DEC_LONG") = false).
  { destruct Hc as [-> | ->]; rewrite (zero_falsy q Hq);
      [reflexivity | apply andb_false_r]. }
  assert (Hv : CrashMapFiltered.isValid r = false).
  { unfold CrashMapFiltered.isValid. rewrite Ht. reflexivity. }
  split; [|split].
  - unfold CrashMap.loadData, CrashMap.validRows.
    rewrite !List.filter_app. simpl. rewrite Ht. reflexivity.
  - unfold CrashMapFiltered.loadData.
    rewrite !List.filter_app. simpl. rewrite Hv. reflexivity.
  - unfold CrashMap.validRows. rewrite filter_In. intros [_ H]. congruence.
Qed.

(** Witness of [zero_coordinate_excluded]: the row on the equator. *)
Lemma zero_coordinate_excluded_witness :
  CrashMap.loadData [Samples.crash1; Samples.crash_equator]
  = CrashMap.loadData [Samples.crash1]
  /\ CrashMapFiltered.loadData [] [Samples.crash1; Samples.crash_equator]
     = CrashMapFiltered.loadData [] [Samples.crash1].
Proof.
  destruct (zero_coordinate_excluded [] [Samples.crash1] [] Samples.crash_equator 0)
    as (H1 & H2 & _).
  - left. reflexivity.
  - reflexivity.
  - split; [exact H1 | exact H2].
Defined.

End LoaderFacts.

(* ===================================================================== *)
(** * Property keys of cells that hold no text                            *)
(* ===================================================================== *)

Module KeyFacts.
Import Spec.

Lemma pretty_N_char_numeric x : numeric_char (pretty_N_char x) = true.
Proof. unfold pretty_N_char. repeat case_match; reflexivity. Qed.

Lemma pretty_N_go_numeric x : forall s,
  Forall (fun a => numeric_char a = true) (chars s) ->
  Forall (fun a => numeric_char a = true) (chars (pretty_N_go x s)).
Proof.
  induction (N.lt_wf_0 x) as [x _ IH]; intros s Hs.
  destruct (decide (x = 0%N)) as [-> | Hx]; [now rewrite pretty_N_go_0|].
  rewrite pretty_N_go_step by lia. apply IH.
  - apply N.div_lt; lia.
  - simpl. constructor; [apply pretty_N_char_numeric | exact Hs].
Qed.

Lemma digits_numeric n : Forall (fun a => numeric_char a = true) (digits_of_N n).
Proof.
  unfold digits_of_N, pretty, pretty_N. case_decide.
  - repeat constructor.
  - apply pretty_N_go_numeric. constructor.
Qed.

Lemma format_digits_numeric ds n :
  Forall (fun a => numeric_char a = true) ds ->
  Forall (fun a => numeric_char a = true) (format_digits ds n).
Proof.
  intros H. unfold format_digits.
  assert (Hz : forall k, Forall (fun a => numeric_char a = true) (repeat "0"%char k)).
  { intros k. induction k; simpl; constructor; auto. }
  destruct ((Z.of_nat (length ds) <=? n) && (n <=? 21))%Z.
  { apply Forall_app. split; [exact H | apply Hz]. }
  destruct ((0 <? n) && (n <=? 21))%Z.
  { apply Forall_app. split; [now apply Forall_take|].
    constructor; [reflexivity | now apply Forall_drop]. }
  destruct ((-6 <? n) && (n <=? 0))%Z.
  { constructor; [reflexivity|]. constructor; [reflexivity|].
    apply Forall_app. split; [apply Hz | exact H]. }
  apply Forall_app. split.
  - destruct ds as [|d [|d' r]]; [exact H | exact H |].
    inversion H as [|? ? Hd Hr]; subst.
    constructor; [exact Hd|]. constructor; [reflexivity | exact Hr].
  - constructor; [reflexivity|].
    constructor; [destruct (n - 1 <? 0)%Z; reflexivity | apply digits_numeric].
Qed.

Lemma positive_to_string_numeric a b :
  Forall (fun c => numeric_char c = true) (positive_to_string a b).
Proof.
  unfold positive_to_string. repeat case_match.
  - apply format_digits_numeric, digits_numeric.
  - apply Forall_app. split; [apply digits_numeric|].
    constructor; [reflexivity | apply digits_numeric].
Qed.

(** The spelling of a finite number has digits, a point, an exponent
    mark and signs only. *)
Lemma finite_numeric q :
  forallb numeric_char (chars (NumberToString (Fin q))) = true.
Proof.
  apply forallb_forall. unfold NumberToString.
  assert (H : forall a b x, In x (chars (string_of_list_ascii (positive_to_string a b)))
                            -> numeric_char x = true).
  { intros a b x. unfold chars. rewrite list_ascii_of_string_of_list_ascii.
    pose proof (positive_to_string_numeric a b) as Hf.
    rewrite List.Forall_forall in Hf. apply Hf. }
  destruct (Qnum (Qred q)) as [|a|a]; intros x Hx.
  - destruct Hx as [<- | []]. reflexivity.
  - eapply H; eauto.
  - destruct Hx as [<- | Hx]; [reflexivity | eapply H; eauto].
Qed.

(** The record number of a cell that holds no text names no member of
    [Object.prototype]. *)
Lemma non_text_ordinary c : is_text c = false -> ordinary (ToPropertyKey c) = true.
Proof.
  destruct c as [| | [] | [| [] | q] | s]; try reflexivity; [|discriminate].
  intros _. pose proof (finite_numeric q) as H.
  change (ToPropertyKey (Num (Fin q))) with (NumberToString (Fin q)).
  unfold ordinary. apply negb_true_iff, not_true_iff_false. intros E.
  apply existsb_exists in E as (name & Hin & Hname).
  apply String.eqb_eq in Hname. rewrite Hname in H.
  simpl in Hin.
  repeat (destruct Hin as [<- | Hin]; [vm_compute in H; discriminate|]).
  destruct Hin.
Qed.

End KeyFacts.

(* ===================================================================== *)
(** * The join of crashes with flags                                      *)
(* ===================================================================== *)

Module JoinFacts.
Import CrashMapFiltered Spec.

Lemma matching_truthy_cons k f fs :
  matching_truthy k (f :: fs) =
  if ToBoolean (field f "CRN") && String.eqb (ToPropertyKey (field f "CRN")) k
  then f :: matching_truthy k fs else matching_truthy k fs.
Proof. reflexivity. Qed.

(** Own properties: the last truthy row stored under the key wins. *)
Lemma own_after_fold flagRows : forall l0 k,
  k <> "__proto__" ->
  own (fold_left store flagRows l0) !! k =
  match last (matching_truthy k flagRows) with
  | Some f => Some f
  | None => own l0 !! k
  end.
Proof.
  induction flagRows as [|f fs IH]; intros l0 k Hk; simpl fold_left.
  - reflexivity.
  - rewrite (IH _ k Hk), matching_truthy_cons. unfold store.
    destruct (ToBoolean (field f "CRN")); simpl andb.
    + destruct (String.eqb_spec (ToPropertyKey (field f "CRN")) k) as [-> | Hne].
      * rewrite last_cons. unfold assign.
        destruct (String.eqb_spec k "__proto__") as [E | _]; [contradiction|].
        simpl. rewrite lookup_insert_eq.
        destruct (last (matching_truthy k fs)); reflexivity.
      * unfold assign.
        destruct (String.eqb (ToPropertyKey (field f "CRN")) "__proto__");
          simpl; [reflexivity|].
        rewrite lookup_insert_ne by exact Hne. reflexivity.
    + reflexivity.
Qed.

(** The prototype stays [Object.prototype] unless a row is keyed
    [__proto__]. *)
Lemma proto_after_fold flagRows : forall l0,
  (forall f, In f flagRows -> ToBoolean (field f "CRN") = true ->
             ToPropertyKey (field f "CRN") <> "__proto__") ->
  proto (fold_left store flagRows l0) = proto l0.
Proof.
  induction flagRows as [|f fs IH]; intros l0 H; simpl fold_left; [reflexivity|].
  rewrite IH by (intros g Hg; apply H; now right).
  unfold store. destruct (ToBoolean (field f "CRN")) eqn:Ht; [|reflexivity].
  unfold assign.
  destruct (String.eqb_spec (ToPropertyKey (field f "CRN")) "__proto__") as [E|_].
  - exfalso. apply (H f); [now left | exact Ht | exact E].
  - reflexivity.
Qed.

Lemma ordinary_not_proto k : ordinary k = true -> k <> "__proto__".
Proof. intros H ->. discriminate. Qed.

Lemma ordinary_prototype_get k :
  ordinary k = true -> object_prototype_get k = VCell Undefined.
Proof.
  unfold ordinary, object_prototype_get. intros H.
  apply negb_true_iff in H. now rewrite H.
Qed.

(** The flags joined to a crash row whose key is ordinary. *)
Lemma enrich_flags (flagRows : list row) (r : row) :
  ordinary (ToPropertyKey (field r "CRN")) = true ->
  (forall f, In f flagRows -> ToBoolean (field f "CRN") = true ->
             ToPropertyKey (field f "CRN") <> "__proto__") ->
  flags (enrich (flagLookup flagRows) r) =
  match last (matching_truthy (ToPropertyKey (field r "CRN")) flagRows) with
  | Some f => VRow f
  | None => VEmpty
  end.
Proof.
  intros Hk Hp. simpl.
  set (k := ToPropertyKey (field r "CRN")) in *.
  unfold get, flagLookup.
  rewrite (own_after_fold flagRows empty_lookup k (ordinary_not_proto k Hk)).
  destruct (last (matching_truthy k flagRows)) as [f|]; [reflexivity|].
  simpl own. rewrite lookup_empty.
  rewrite (proto_after_fold flagRows empty_lookup Hp). simpl proto.
  destruct (String.eqb_spec k "__proto__") as [E|_];
    [now apply ordinary_not_proto in Hk|].
  rewrite (ordinary_prototype_get k Hk). reflexivity.
Qed.

(** C5 (as amended).  For every record built by the join whose record
    number names nothing on [Object.prototype], with no flag row keyed
    [__proto__]: when flag rows with a truthy [CRN] and the same key
    exist, the record's flags are the last of them in source order; when
    none exists, they are the empty object. *)
Theorem join_last_write_wins (flagRows crashRows : list row) (e : enriched) :
  In e (loadData flagRows crashRows) ->
  ordinary (ToPropertyKey (field (crash e) "CRN")) = true ->
  (forall f, In f flagRows -> ToBoolean (field f "CRN") = true ->
             ToPropertyKey (field f "CRN") <> "__proto__") ->
  flags e =
  match last (matching_truthy (ToPropertyKey (field (crash e) "CRN")) flagRows) with
  | Some f => VRow f
  | None => VEmpty
  end.
Proof.
  intros He Hk Hp. unfold loadData in He.
  apply in_map_iff in He as (r & <- & _). now apply enrich_flags.
Qed.

(** The side conditions hold whenever no record number is a text, as in
    files whose [CRN] column holds numbers. *)
Lemma join_without_texts (flagRows crashRows : list row) (e : enriched) :
  In e (loadData flagRows crashRows) ->
  is_text (field (crash e) "CRN") = false ->
  (forall f, In f flagRows -> is_text (field f "CRN") = false) ->
  flags e =
  match last (matching_truthy (ToPropertyKey (field (crash e) "CRN")) flagRows) with
  | Some f => VRow f
  | None => VEmpty
  end.
Proof.
  intros He Hc Hf. unfold loadData in He.
  apply in_map_iff in He as (r & <- & _). apply enrich_flags.
  - now apply KeyFacts.non_text_ordinary.
  - intros f Hin _. apply ordinary_not_proto, KeyFacts.non_text_ordinary. now apply Hf.
Qed.

(** Witness of [join_last_write_wins]: of two flag rows for the record
    number 1, the later one is joined. *)
Lemma join_last_write_wins_witness :
  flags (enrich (flagLookup [Samples.flag1_old; Samples.flag2; Samples.flag1_new])
           Samples.crash1)
  = VRow Samples.flag1_new.
Proof.
  rewrite (join_last_write_wins
             [Samples.flag1_old; Samples.flag2; Samples.flag1_new] [Samples.crash1]).
  - vm_compute. reflexivity.
  - left. reflexivity.
  - vm_compute. reflexivity.
  - intros f [<- | [<- | [<- | []]]] _; vm_compute; discriminate.
Defined.

(** The side conditions are needed: a record number that names a member
    of [Object.prototype] is joined with that member, whatever the flags. *)
Lemma prototype_member_joined :
  List.map flags (loadData [Samples.flag2] [Samples.crash_constructor])
  = [VBuiltin "constructor"].
Proof. vm_compute. reflexivity. Qed.

(** C5 (as stated) fails on the record number 0: the flag row is never
    stored, and the crash that matches it is joined with the empty object. *)
Lemma zero_crn_not_joined :
  last (matching (ToPropertyKey (field Samples.crash_zero "CRN")) [Samples.flag_zero])
  = Some Samples.flag_zero
  /\ List.map flags (loadData [Samples.flag_zero] [Samples.crash_zero]) = [VEmpty].
Proof. split; vm_compute; reflexivity. Qed.

End JoinFacts.

(* ===================================================================== *)
(** * The analytics panel: severity distribution                          *)
(* ===================================================================== *)

Module SeverityFacts.
Import AnalyticsPanel JSFacts Spec.

(** A count above zero is not strictly equal to zero. *)
Lemma gt_zero_not_eq c : js_gt c (Fin 0) = true -> strict_eq c (Fin 0) = false.
Proof.
  intros H. destruct c as [| | b | [| s | q] | s]; try reflexivity.
  simpl. apply (num_lt_Fin 0 q) in H.
  apply not_true_iff_false. rewrite Qeq_bool_iff. intros E. rewrite E in H.
  now apply Qlt_irrefl in H.
Qed.

(** The three buckets exclude one another. *)
Lemma severity_exclusive c :
  (is_fatal c = true -> is_injury c = false /\ is_property c = false)
  /\ (is_injury c = true -> is_property c = false).
Proof.
  unfold is_fatal, is_injury, is_property. split.
  - intros H. rewrite (gt_zero_not_eq _ H). split; [apply andb_false_r | reflexivity].
  - rewrite andb_true_iff. intros [H _]. rewrite (gt_zero_not_eq _ H).
    apply andb_false_r.
Qed.

Lemma severity_three_buckets crashes :
  List.map fst (processSeverityDistribution crashes) = ["fatal"; "injury"; "property"].
Proof. reflexivity. Qed.

Lemma bucket_counts_sum crashes :
  (length (List.filter is_fatal crashes)
   + length (List.filter is_injury crashes)
   + length (List.filter is_property crashes)
   = length (List.filter classified crashes))%nat.
Proof.
  induction crashes as [|c l IH]; [reflexivity|]. simpl. unfold classified at 1.
  destruct (severity_exclusive c) as [Hf Hi].
  destruct (is_fatal c) eqn:Ef.
  - destruct (Hf eq_refl) as [-> ->]. simpl. lia.
  - destruct (is_injury c) eqn:Ei.
    + rewrite (Hi eq_refl). simpl. lia.
    + destruct (is_property c); simpl; lia.
Qed.

(** The buckets never count more records than there are. *)
Lemma bucket_counts_le crashes :
  (length (List.filter is_fatal crashes)
   + length (List.filter is_injury crashes)
   + length (List.filter is_property crashes)
   <= length crashes)%nat.
Proof. rewrite bucket_counts_sum. apply List.filter_length_le. Qed.

Lemma counted_classified c : counted c -> classified c = true.
Proof.
  intros (f & i & Ef & Ei & Hf & Hi).
  unfold classified, is_fatal, is_injury, is_property, js_gt. rewrite Ef, Ei. simpl.
  destruct (Qle_bool f 0) eqn:Lf; simpl; [|reflexivity].
  apply Qle_bool_iff in Lf.
  assert (Zf : Qeq_bool f 0 = true) by (apply Qeq_bool_iff; lra).
  rewrite Zf. simpl.
  destruct (Qle_bool i 0) eqn:Li; simpl; [|reflexivity].
  apply Qle_bool_iff in Li. apply Qeq_bool_iff. lra.
Qed.

(** On records whose two counts are numbers, the buckets sum to the total. *)
Lemma bucket_counts_total crashes :
  Forall counted crashes ->
  (length (List.filter is_fatal crashes)
   + length (List.filter is_injury crashes)
   + length (List.filter is_property crashes)
   = length crashes)%nat.
Proof.
  intros H. rewrite bucket_counts_sum.
  induction H as [|c l Hc _ IH]; [reflexivity|].
  simpl. rewrite (counted_classified c Hc). simpl. now rewrite IH.
Qed.

(** C1, at its failing input.  A record whose [FATAL_COUNT] is blank and
    whose [INJURY_COUNT] is 0 is counted in none of the three buckets,
    which then sum to 0 for a total of one record; the plain map
    classifies the same row as property damage only. *)
Theorem severity_blank_count_dropped :
  processSeverityDistribution [Samples.crash_blank_fatal]
  = [("fatal", 0%nat); ("injury", 0%nat); ("property", 0%nat)]
  /\ length [Samples.crash_blank_fatal] = 1%nat
  /\ CrashMap.severity_of (CrashMap.toPoint Samples.crash_blank_fatal) = CrashMap.PDO.
Proof. repeat split; vm_compute; reflexivity. Qed.

End SeverityFacts.

(* ===================================================================== *)
(** * The analytics panel: monthly trends                                 *)
(* ===================================================================== *)

Module MonthlyFacts.
Import AnalyticsPanel JSFacts Spec.

Lemma count_month_bounded md crash md' :
  count_month md crash = Some md' ->
  Forall bounded md -> Forall bounded md' /\ length md' = length md.
Proof.
  unfold count_month. intros H Hb.
  destruct (month_guard crash); [|injection H as <-; auto].
  destruct (array_index _) as [i|]; [|discriminate].
  destruct (md !! N.to_nat i) as [m|] eqn:Em; [|discriminate].
  set (bf := js_gt (field crash "FATAL_COUNT") (Fin 0)) in H.
  set (bi := js_gt (field crash "INJURY_COUNT") (Fin 0)) in H.
  injection H as <-. split; [|apply length_insert].
  apply Forall_insert; [exact Hb|].
  assert (Hm : bounded m) by (eapply Forall_lookup_1; eauto).
  destruct Hm as [H1 H2]. unfold bounded.
  destruct bf, bi; simpl; lia.
Qed.

Lemma count_months_bounded crashes : forall md out,
  count_months md crashes = Some out ->
  Forall bounded md -> Forall bounded out /\ length out = length md.
Proof.
  induction crashes as [|c l IH]; simpl; intros md out H Hb.
  - injection H as <-. auto.
  - destruct (count_month md c) as [md'|] eqn:E; [|discriminate].
    destruct (count_month_bounded _ _ _ E Hb) as [Hb' Hl].
    destruct (IH _ _ H Hb') as [Ho Hlo]. split; [exact Ho | congruence].
Qed.

Lemma count_months_app l1 : forall md l2,
  count_months md (l1 ++ l2)%list =
  match count_months md l1 with
  | Some md' => count_months md' l2
  | None => None
  end.
Proof.
  induction l1 as [|c l IH]; simpl; intros md l2; [reflexivity|].
  destruct (count_month md c); [apply IH | reflexivity].
Qed.

(** A whole month within the guard names a slot of [monthlyData]. *)
Lemma whole_month_index crash q (z : Z) :
  ToNumber (field crash "CRASH_MONTH") = Fin q ->
  q == inject_Z z -> (1 <= z <= 12)%Z ->
  month_guard crash = true
  /\ array_index
       (NumberToString (num_sub (ToNumber (field crash "CRASH_MONTH")) (Fin 1)))
     = Some (Z.to_N (z - 1)).
Proof.
  intros Eq Hq Hz. split.
  - apply in_range_closed. exists q. split; [exact Eq|]. rewrite Hq.
    unfold Qle. simpl. lia.
  - rewrite Eq. change (num_sub (Fin q) (Fin 1)) with (Fin (q + - (1))).
    rewrite (NumberToString_proper (q + - (1)) (inject_Z (z - 1))).
    + apply small_index. lia.
    + rewrite Hq. unfold Zminus. rewrite inject_Z_plus, inject_Z_opp. reflexivity.
Qed.

Lemma count_month_total md crash :
  length md = 12%nat -> whole_month crash ->
  exists md', count_month md crash = Some md'.
Proof.
  intros Hl Hw. unfold count_month.
  destruct (month_guard crash) eqn:Hg; [|eauto].
  pose proof Hg as Hg'. apply in_range_closed in Hg' as (q & Eq & L & U).
  destruct (Hw q Eq) as (z & Hz).
  assert (Rz : (1 <= z <= 12)%Z).
  { rewrite Hz in L, U. unfold Qle in L, U. simpl in L, U. lia. }
  destruct (whole_month_index crash q z Eq Hz Rz) as [_ ->].
  destruct (lookup_lt_is_Some_2 md (N.to_nat (Z.to_N (z - 1)))) as [m ->];
    [rewrite Hl; lia|].
  eauto.
Qed.

Lemma count_months_total crashes : forall md,
  length md = 12%nat -> Forall whole_month crashes ->
  exists out, count_months md crashes = Some out.
Proof.
  induction crashes as [|c l IH]; simpl; intros md Hl Hw; [eauto|].
  inversion Hw as [|? ? Hc Hr]; subst.
  destruct (count_month_total md c Hl Hc) as [md' E]. rewrite E.
  apply IH; [|exact Hr].
  unfold count_month in E.
  destruct (month_guard c); [|congruence].
  destruct (array_index _); [|discriminate].
  destruct (md !! _); [|discriminate].
  injection E as <-. now rewrite length_insert.
Qed.

(** C8.  Whenever [processMonthlyTrends] returns, it returns twelve
    months in each of which the fatal and the injury counts are at most
    the total; it returns on every dataset whose months are whole
    numbers; and a crash with a fatality and an injury adds one to the
    total, to the fatal and to the injury counter of its month. *)
Theorem monthly_trend_bounds (crashes : list row) :
  (forall out, processMonthlyTrends crashes = Some out ->
     length out = 12%nat
     /\ Forall (fun m => (fatal m <= total m)%nat /\ (injury m <= total m)%nat) out)
  /\ (Forall whole_month crashes ->
      exists out, processMonthlyTrends crashes = Some out)
  /\ (forall out crash q (i : nat) m,
        processMonthlyTrends crashes = Some out ->
        field crash "CRASH_MONTH" = Num (Fin q) ->
        q == inject_Z (Z.of_nat (S i)) -> (i < 12)%nat ->
        js_gt (field crash "FATAL_COUNT") (Fin 0) = true ->
        js_gt (field crash "INJURY_COUNT") (Fin 0) = true ->
        out !! i = Some m ->
        processMonthlyTrends (crashes ++ [crash])%list
        = Some (<[i := {| total := S (total m);
                          fatal := S (fatal m);
                          injury := S (injury m) |}]> out)).
Proof.
  unfold processMonthlyTrends.
  set (zero := {| total := 0; fatal := 0; injury := 0 |}).
  assert (Hz : Forall bounded (replicate 12 zero)).
  { apply Forall_replicate. split; simpl; lia. }
  split; [|split].
  - intros out H. destruct (count_months_bounded _ _ _ H Hz) as [Hb Hl].
    split; [now rewrite Hl, length_replicate | exact Hb].
  - intros Hw. apply count_months_total; [apply length_replicate | exact Hw].
  - intros out crash q i m H Em Hq Hi Hf Hj Hm.
    rewrite count_months_app, H. simpl.
    assert (Eq : ToNumber (field crash "CRASH_MONTH") = Fin q) by now rewrite Em.
    destruct (whole_month_index crash q (Z.of_nat (S i)) Eq Hq) as [Hg Hx]; [lia|].
    unfold count_month. rewrite Hg, Hx.
    replace (N.to_nat (Z.to_N (Z.of_nat (S i) - 1))) with i by lia.
    rewrite Hm, Hf, Hj. reflexivity.
Qed.

(** Witness of [monthly_trend_bounds]: one crash in March with a
    fatality and injuries counts once in each counter of March. *)
Lemma monthly_trend_bounds_witness :
  processMonthlyTrends [Samples.crash1]
  = Some (<[2%nat := {| total := 1; fatal := 1; injury := 1 |}]>
            (replicate 12 {| total := 0; fatal := 0; injury := 0 |})).
Proof.
  destruct (monthly_trend_bounds []) as (_ & _ & H).
  apply (H _ Samples.crash1 3 2%nat {| total := 0; fatal := 0; injury := 0 |});
    try (vm_compute; reflexivity).
  lia.
Defined.

End MonthlyFacts.

(* ===================================================================== *)
(** * The predictions container: the batch keeps its order                *)
(* ===================================================================== *)

Module PredictionsFacts.
Import PredictionsContainer JSFacts Spec.

Lemma getHours_requested now i :
  getHours (requested now i) = ((now + Z.of_nat i) mod 24)%Z.
Proof. unfold requested, setHours, getHours. f_equal. lia. Qed.

Lemma hour_of_tagged timestamp data :
  field (tagged timestamp data) "hour" = Num (Fin (inject_Z (getHours timestamp))).
Proof. unfold field, tagged. now rewrite lookup_insert_eq. Qed.

Lemma lookup_map {A B} (f : A -> B) (l : list A) : forall i,
  List.map f l !! i = f <$> l !! i.
Proof. induction l as [|x l IH]; intros [|i]; simpl; auto. Qed.

Lemma timestamps_dispatch clock i :
  (i < 24)%nat -> timestamps (dispatch clock) !! i = Some (requested (clock i) i).
Proof.
  intros H. unfold dispatch, timestamps.
  rewrite lookup_map, lookup_seq_lt by exact H. reflexivity.
Qed.

Lemma timestamps_arrive b a : timestamps (arrive b a) = timestamps b.
Proof. destruct a as [i data]. unfold arrive. destruct (timestamps b !! i); reflexivity. Qed.

Lemma length_values_arrive b a : length (values (arrive b a)) = length (values b).
Proof.
  destruct a as [i data]. unfold arrive.
  destruct (timestamps b !! i); simpl; [apply length_insert | reflexivity].
Qed.

Lemma arrive_fills b i data :
  (i < length (timestamps b))%nat -> (i < length (values b))%nat ->
  filled (arrive b (i, data)) i.
Proof.
  intros Ht Hv. unfold filled, arrive.
  destruct (lookup_lt_is_Some_2 _ _ Ht) as [t Et]. rewrite Et. simpl.
  exists t, data. split; [exact Et|]. now apply list_lookup_insert_eq.
Qed.

Lemma arrive_keeps b a i : filled b i -> filled (arrive b a) i.
Proof.
  intros (t & data & Et & Ev). destruct a as [j data']. unfold filled, arrive.
  destruct (timestamps b !! j) as [tj|] eqn:Ej; simpl; [|eauto].
  destruct (decide (j = i)) as [-> | Hne].
  - exists t, data'. split; [exact Et|].
    assert (tj = t) as -> by congruence.
    apply list_lookup_insert_eq. eapply lookup_lt_Some; eauto.
  - exists t, data. split; [exact Et|]. now rewrite list_lookup_insert_ne.
Qed.

Lemma fold_arrive_fills arrivals : forall b i,
  length (timestamps b) = length (values b) ->
  (i < length (values b))%nat ->
  In i (List.map fst arrivals) \/ filled b i ->
  filled (fold_left arrive arrivals b) i.
Proof.
  induction arrivals as [|[j data] l IH]; intros b i Hl Hi H; cbn [fold_left].
  - destruct H as [[] | H]; exact H.
  - apply IH.
    + now rewrite timestamps_arrive, length_values_arrive.
    + now rewrite length_values_arrive.
    + destruct H as [H | H]; [simpl in H; destruct H as [-> | H]|].
      * right. apply arrive_fills; lia.
      * now left.
      * right. now apply arrive_keeps.
Qed.

Lemma fold_arrive_timestamps arrivals : forall b,
  timestamps (fold_left arrive arrivals b) = timestamps b.
Proof.
  induction arrivals as [|a l IH]; intros b; cbn [fold_left]; [reflexivity|].
  now rewrite IH, timestamps_arrive.
Qed.

Lemma fold_arrive_length arrivals : forall b,
  length (values (fold_left arrive arrivals b)) = length (values b).
Proof.
  induction arrivals as [|a l IH]; intros b; cbn [fold_left]; [reflexivity|].
  now rewrite IH, length_values_arrive.
Qed.

(** [Promise.all] keeps the slots in place. *)
Lemma fulfilled_slots (vs : list (option response)) :
  (forall i, (i < length vs)%nat -> exists x, vs !! i = Some (Some x)) ->
  exists result,
    mapM id vs = Some result
    /\ length result = length vs
    /\ forall i x, vs !! i = Some (Some x) -> result !! i = Some x.
Proof.
  induction vs as [|v vs IH]; intros H.
  - exists []. repeat split. intros i x E. discriminate.
  - destruct (H 0%nat) as [x0 E0]; [simpl; lia|]. simpl in E0. injection E0 as ->.
    destruct IH as (r & Er & Lr & Hr).
    { intros i Hi. apply (H (S i)). simpl. lia. }
    exists (x0 :: r). split; [|split].
    + simpl. rewrite Er. reflexivity.
    + simpl. now rewrite Lr.
    + intros [|i] x E; simpl in *; [congruence | now apply Hr].
Qed.




End PredictionsFacts.

(* ===================================================================== *)
(** * The analytics panel: hourly distribution                            *)
(* ===================================================================== *)

Module HourlyFacts.
Import AnalyticsPanel DigitFacts RenderFacts JSFacts Spec.

Lemma pretty_to_nat (n : N) : pretty (N.to_nat n) = pretty n.
Proof. unfold pretty at 1, pretty_nat. now rewrite N2Nat.id. Qed.

(** Under the guard, a cell that names an array index names one of the
    24 slots, and holds that hour. *)
Lemma guarded_hour_in_range c i :
  js_ge c (Fin 0) && js_lt c (Fin 24) = true ->
  array_index (ToPropertyKey c) = Some i ->
  (i < 24)%N /\ cell_is (N.to_nat i) c = true.
Proof.
  intros Hg Hi. apply in_range in Hg as (q & Eq & L & U).
  destruct c as [| | [] | [| [] | q'] | s]; try discriminate.
  - (* a number *)
    simpl in Eq. injection Eq as ->.
    change (ToPropertyKey (Num (Fin q))) with (NumberToString (Fin q)) in Hi.
    destruct (decide (Qden (Qred q) = 1%positive)) as [Hw | Hw];
      [|rewrite (fraction_not_index q Hw) in Hi; discriminate].
    pose proof (whole_value q Hw) as Hv. set (a := Qnum (Qred q)) in *.
    assert (Ra : (0 <= a < 24)%Z).
    { rewrite Hv in L, U. unfold Qle in L. unfold Qlt in U. simpl in L, U. lia. }
    rewrite (NumberToString_proper _ _ Hv), (small_index a Ra) in Hi.
    injection Hi as <-. split; [lia|].
    simpl. apply Qeq_bool_iff. rewrite Hv.
    replace (Z.of_nat (N.to_nat (Z.to_N a))) with a by lia. reflexivity.
  - (* a text *)
    change (ToPropertyKey (Str s)) with s in Hi.
    change (ToNumber (Str s)) with (StringToNumber s) in Eq.
    unfold array_index in Hi.
    destruct (all_digits 10 (chars s)) as [n|] eqn:En; [|discriminate].
    destruct (String.eqb_spec (pretty n) s) as [Es|]; [|discriminate].
    destruct (n <? 4294967295)%N; [|discriminate]. injection Hi as <-.
    destruct (StringToNumber_digits s n En) as (q0 & E0 & H0).
    rewrite E0 in Eq. injection Eq as ->.
    assert (Rn : (n < 24)%N).
    { rewrite H0 in U. unfold Qlt in U. simpl in U. lia. }
    split; [exact Rn|]. simpl. rewrite pretty_to_nat.
    apply String.eqb_eq. now symmetry.
Qed.

(** A cell that holds the hour [h] passes the guard and names slot [h]. *)
Lemma hour_cell_index c h :
  (h < 24)%nat -> cell_is h c = true ->
  js_ge c (Fin 0) && js_lt c (Fin 24) = true
  /\ array_index (ToPropertyKey c) = Some (N.of_nat h).
Proof.
  intros Hh Hc. destruct c as [| | b | [| b | q] | s]; try discriminate.
  - simpl in Hc. apply Qeq_bool_iff in Hc. split.
    + apply in_range. exists q. split; [reflexivity|]. rewrite Hc.
      unfold Qle, Qlt. simpl. lia.
    + change (ToPropertyKey (Num (Fin q))) with (NumberToString (Fin q)).
      rewrite (NumberToString_proper _ _ Hc).
      rewrite small_index by lia. f_equal. lia.
  - simpl in Hc. apply String.eqb_eq in Hc. subst s.
    do 24 (destruct h as [|h]; [split; vm_compute; reflexivity|]). lia.
Qed.

(** One round of the loop adds one to the slot of the hour the crash
    holds, and changes no other slot. *)
Lemma count_hour_slot distribution crash h x :
  length distribution = 24%nat -> (h < 24)%nat ->
  distribution !! h = Some x ->
  length (count_hour distribution crash) = 24%nat
  /\ count_hour distribution crash !! h
     = Some (if hour_is h crash then S x else x).
Proof.
  intros Hl Hh Hx. unfold count_hour, hour_guard, increment, hour_is.
  set (c := field crash "HOUR_OF_DAY").
  destruct (js_ge c (Fin 0) && js_lt c (Fin 24)) eqn:Hg.
  - destruct (array_index (ToPropertyKey c)) as [i|] eqn:Hi.
    + destruct (guarded_hour_in_range c i Hg Hi) as [Ri Hc].
      split; [now rewrite length_alter|].
      destruct (decide (N.to_nat i = h)) as [<- | Hne].
      * rewrite Hc, list_lookup_alter_eq, Hx. reflexivity.
      * rewrite list_lookup_alter_ne by exact Hne.
        destruct (cell_is h c) eqn:Hc'; [|exact Hx].
        destruct (hour_cell_index c h Hh Hc') as [_ Hi'].
        rewrite Hi in Hi'. injection Hi' as ->. lia.
    + split; [exact Hl|].
      destruct (cell_is h c) eqn:Hc'; [|exact Hx].
      destruct (hour_cell_index c h Hh Hc') as [_ Hi']. congruence.
  - split; [exact Hl|].
    destruct (cell_is h c) eqn:Hc'; [|exact Hx].
    destruct (hour_cell_index c h Hh Hc') as [Hg' _]. congruence.
Qed.

Lemma fold_count_hour crashes : forall distribution h x,
  length distribution = 24%nat -> (h < 24)%nat ->
  distribution !! h = Some x ->
  length (fold_left count_hour crashes distribution) = 24%nat
  /\ fold_left count_hour crashes distribution !! h
     = Some (x + length (List.filter (hour_is h) crashes))%nat.
Proof.
  induction crashes as [|c l IH]; intros d h x Hl Hh Hx; cbn [fold_left].
  - split; [exact Hl|]. simpl. now rewrite Nat.add_0_r.
  - destruct (count_hour_slot d c h x Hl Hh Hx) as [Hl' Hx'].
    destruct (IH _ h _ Hl' Hh Hx') as [Hl'' Hx''].
    split; [exact Hl''|]. rewrite Hx''. f_equal.
    simpl. destruct (hour_is h c); simpl; lia.
Qed.

Lemma filter_none {A} (f : A -> bool) (l : list A) :
  (forall x, In x l -> f x = false) -> List.filter f l = [].
Proof.
  induction l as [|x l IH]; intros H; [reflexivity|].
  simpl. rewrite (H x) by now left. apply IH. intros y Hy. apply H. now right.
Qed.

Lemma labels_in_order (counts : list nat) :
  length counts = 24%nat ->
  List.map fst (imap (fun hour count => (hour_label hour, count)) counts)
  = hour_labels.
Proof.
  intros H. do 24 (destruct counts as [|? counts]; [discriminate|]).
  destruct counts; [|discriminate]. vm_compute. reflexivity.
Qed.

(** C7.  The hourly distribution lists the 24 hours from [00:00] to
    [23:00]; the bucket of hour [h] holds the number of records whose
    [HOUR_OF_DAY] is [h], and so 0 when there is none. *)
Theorem hourly_distribution (crashes : list row) :
  List.map fst (processTimeDistribution crashes) = hour_labels
  /\ length (processTimeDistribution crashes) = 24%nat
  /\ (forall h, (h < 24)%nat ->
        processTimeDistribution crashes !! h
        = Some (hour_label h, length (List.filter (hour_is h) crashes)))
  /\ (forall h, (h < 24)%nat ->
        (forall c, In c crashes -> hour_is h c = false) ->
        processTimeDistribution crashes !! h = Some (hour_label h, 0%nat)).
Proof.
  unfold processTimeDistribution, hour_counts.
  set (zeros := replicate 24 0%nat).
  assert (Hz : length zeros = 24%nat) by apply length_replicate.
  assert (Hc : forall h, (h < 24)%nat ->
            length (fold_left count_hour crashes zeros) = 24%nat
            /\ fold_left count_hour crashes zeros !! h
               = Some (length (List.filter (hour_is h) crashes))).
  { intros h Hh.
    apply (fold_count_hour crashes zeros h 0%nat Hz Hh).
    unfold zeros. now apply lookup_replicate_2. }
  assert (Hl : length (fold_left count_hour crashes zeros) = 24%nat)
    by (apply (Hc 0%nat); lia).
  assert (Hb : forall h, (h < 24)%nat ->
            imap (fun hour count => (hour_label hour, count))
              (fold_left count_hour crashes zeros) !! h
            = Some (hour_label h, length (List.filter (hour_is h) crashes))).
  { intros h Hh. rewrite list_lookup_imap.
    destruct (Hc h Hh) as [_ ->]. reflexivity. }
  split; [now apply labels_in_order|].
  split; [now rewrite length_imap|].
  split; [exact Hb|].
  intros h Hh Hnone. rewrite (Hb h Hh). now rewrite (filter_none _ _ Hnone).
Qed.

(** Witness of [hourly_distribution]: one crash at 8 o'clock counts in
    the bucket of 8, and the bucket of 9 holds 0. *)
Lemma hourly_distribution_witness :
  processTimeDistribution [Samples.crash1] !! 8%nat = Some ("08:00", 1%nat)
  /\ processTimeDistribution [Samples.crash1] !! 9%nat = Some ("09:00", 0%nat).
Proof.
  destruct (hourly_distribution [Samples.crash1]) as (_ & _ & H1 & H2).
  split.
  - rewrite (H1 8%nat) by lia. vm_compute. reflexivity.
  - apply (H2 9%nat); [lia|]. intros c [<- | []]. vm_compute. reflexivity.
Defined.

End HourlyFacts.

(* ===================================================================== *)
(** * Array indices of finite numbers                                     *)
(* ===================================================================== *)

Module IndexFacts.
Import RenderFacts JSFacts.

(** A number of [[0,24)] that names an array index is that whole number. *)
Lemma finite_index q j :
  0 <= q -> q < 24 ->
  array_index (NumberToString (Fin q)) = Some j ->
  q == inject_Z (Z.of_N j) /\ (j < 24)%N.
Proof.
  intros L U Hi.
  destruct (decide (Qden (Qred q) = 1%positive)) as [Hw | Hw];
    [|rewrite (fraction_not_index q Hw) in Hi; discriminate].
  pose proof (whole_value q Hw) as Hv. set (a := Qnum (Qred q)) in *.
  assert (Ra : (0 <= a < 24)%Z).
  { rewrite Hv in L, U. unfold Qle in L. unfold Qlt in U. simpl in L, U. lia. }
  rewrite (NumberToString_proper _ _ Hv), (small_index a Ra) in Hi.
  injection Hi as <-. split; [|lia].
  rewrite Hv. now rewrite Z2N.id by lia.
Qed.

End IndexFacts.


(* ===================================================================== *)
(** * The analytics panel: what the months count                          *)
(* ===================================================================== *)

Module MonthCountFacts.
Import AnalyticsPanel JSFacts IndexFacts Spec.

(** Under the guard, the slot that the month names is the one of that
    month, and it is one of the twelve. *)
Lemma month_slot crash j :
  month_guard crash = true ->
  array_index (NumberToString (num_sub (ToNumber (field crash "CRASH_MONTH")) (Fin 1)))
  = Some j ->
  (N.to_nat j < 12)%nat
  /\ forall i, in_month (S i) crash = true <-> i = N.to_nat j.
Proof.
  intros Hg Hi. apply in_range_closed in Hg as (q & Eq & L & U).
  rewrite Eq in Hi. change (num_sub (Fin q) (Fin 1)) with (Fin (q + - (1))) in Hi.
  destruct (finite_index (q + - (1)) j) as [Hq Hj]; [lra | lra | exact Hi |].
  assert (Hq' : q == inject_Z (Z.of_N j + 1)).
  { rewrite inject_Z_plus. change (inject_Z 1) with 1. lra. }
  split.
  - rewrite Hq' in U. unfold Qle in U. simpl in U. lia.
  - intros i. unfold in_month. rewrite Eq, Qeq_bool_iff, Hq'.
    unfold Qeq. simpl. lia.
Qed.

(** Outside the guard, the crash is of none of the twelve months. *)
Lemma unguarded_month crash i :
  (i < 12)%nat -> month_guard crash = false -> in_month (S i) crash = false.
Proof.
  intros Hi Hg. apply not_true_iff_false. intros H. unfold in_month in H.
  destruct (ToNumber (field crash "CRASH_MONTH")) as [| |q] eqn:Eq; try discriminate.
  apply Qeq_bool_iff in H.
  assert (Hg' : month_guard crash = true); [|congruence].
  apply in_range_closed. exists q. split; [exact Eq|]. rewrite H.
  unfold Qle. simpl. lia.
Qed.

(** One round of the loop on a slot. *)
Lemma count_month_slot md crash md' i t f j :
  count_month md crash = Some md' ->
  (i < 12)%nat ->
  md !! i = Some {| total := t; fatal := f; injury := j |} ->
  md' !! i
  = Some {| total := t + Nat.b2n (in_month (S i) crash);
            fatal := f + Nat.b2n (in_month (S i) crash && is_fatal crash);
            injury := j + Nat.b2n (in_month (S i) crash
                                   && js_gt (field crash "INJURY_COUNT") (Fin 0)) |}.
Proof.
  unfold count_month, is_fatal. intros H Hi Hm.
  destruct (month_guard crash) eqn:Hg.
  - destruct (array_index _) as [k|] eqn:Hk; [|discriminate].
    destruct (month_slot crash k Hg Hk) as [Rk Hin].
    destruct (md !! N.to_nat k) as [m|] eqn:Em; [|discriminate].
    set (bf := js_gt (field crash "FATAL_COUNT") (Fin 0)) in *.
    set (bi := js_gt (field crash "INJURY_COUNT") (Fin 0)) in *.
    injection H as <-.
    destruct (decide (i = N.to_nat k)) as [-> | Hne].
    + rewrite (proj2 (Hin _) eq_refl). rewrite Em in Hm. injection Hm as ->.
      rewrite list_lookup_insert_eq by (eapply lookup_lt_Some; eauto).
      destruct bf, bi; simpl; rewrite ?Nat.add_0_r, ?Nat.add_1_r; reflexivity.
    + rewrite list_lookup_insert_ne by congruence.
      destruct (in_month (S i) crash) eqn:E;
        [apply Hin in E; contradiction|].
      simpl. rewrite !Nat.add_0_r. exact Hm.
  - injection H as <-. rewrite (unguarded_month crash i Hi Hg).
    simpl. rewrite !Nat.add_0_r. exact Hm.
Qed.

Lemma count_month_length md crash md' :
  count_month md crash = Some md' -> length md' = length md.
Proof.
  unfold count_month. intros H.
  destruct (month_guard crash); [|congruence].
  destruct (array_index _); [|discriminate].
  destruct (md !! _); [|discriminate].
  injection H as <-. apply length_insert.
Qed.

Lemma count_months_slot crashes : forall md out i t f j,
  count_months md crashes = Some out ->
  (i < 12)%nat ->
  md !! i = Some {| total := t; fatal := f; injury := j |} ->
  out !! i
  = Some {| total := t + length (List.filter (in_month (S i)) crashes);
            fatal := f + length (List.filter
                                   (fun c => in_month (S i) c && is_fatal c) crashes);
            injury := j + length (List.filter
                                    (fun c => in_month (S i) c
                                              && js_gt (field c "INJURY_COUNT") (Fin 0))
                                    crashes) |}.
Proof.
  induction crashes as [|c l IH]; intros md out i t f j H Hi Hm.
  - simpl in *. injection H as <-. rewrite !Nat.add_0_r. exact Hm.
  - simpl in H. destruct (count_month md c) as [md'|] eqn:E; [|discriminate].
    rewrite (IH _ _ i _ _ _ H Hi (count_month_slot _ _ _ _ _ _ _ E Hi Hm)).
    cbn [List.filter].
    set (bm := in_month (S i) c). set (bf := is_fatal c).
    set (bi := js_gt (field c "INJURY_COUNT") (Fin 0)).
    apply f_equal.
    destruct bm, bf, bi; cbn [andb Nat.b2n length]; f_equal; lia.
Qed.

(** X1.  When [processMonthlyTrends] returns, the month of index [i]
    holds the number of crashes of month [i + 1], the number of those
    with [FATAL_COUNT > 0] and the number of those with
    [INJURY_COUNT > 0]. *)
Theorem monthly_counts (crashes : list row) (out : list month) (i : nat) :
  processMonthlyTrends crashes = Some out ->
  (i < 12)%nat ->
  out !! i
  = Some {| total := length (List.filter (in_month (S i)) crashes);
            fatal := length (List.filter
                               (fun c => in_month (S i) c && is_fatal c) crashes);
            injury := length (List.filter
                                (fun c => in_month (S i) c
                                          && js_gt (field c "INJURY_COUNT") (Fin 0))
                                crashes) |}.
Proof.
  intros H Hi. unfold processMonthlyTrends in H.
  apply (count_months_slot crashes _ out i 0%nat 0%nat 0%nat H Hi).
  now apply lookup_replicate_2.
Qed.

(** Witness of [monthly_counts]: of five crashes, three are of February. *)
Lemma monthly_counts_witness :
  exists out,
    processMonthlyTrends Samples.weather_crashes = Some out
    /\ out !! 1%nat = Some {| total := 3; fatal := 0; injury := 0 |}.
Proof.
  eexists. split; [vm_compute; reflexivity|].
  rewrite (monthly_counts Samples.weather_crashes _ 1%nat);
    [vm_compute; reflexivity | vm_compute; reflexivity | lia].
Defined.

(** A crash with a fractional month stops the loop. *)
Lemma fractional_throws md crash :
  fractional_month crash -> count_month md crash = None.
Proof.
  intros [Hg Hw]. unfold count_month. rewrite Hg.
  destruct (array_index _) as [k|] eqn:Hk; [|reflexivity].
  exfalso. apply Hw. intros q Eq.
  destruct (month_slot crash k Hg Hk) as [_ Hin].
  pose proof (proj2 (Hin (N.to_nat k)) eq_refl) as H.
  unfold in_month in H. rewrite Eq in H. apply Qeq_bool_iff in H. eauto.
Qed.

(** On twelve months, only such a crash does. *)
Lemma throws_fractional md crash :
  length md = 12%nat -> count_month md crash = None -> fractional_month crash.
Proof.
  intros Hl H. unfold count_month in H.
  destruct (month_guard crash) eqn:Hg; [|discriminate].
  split; [exact Hg|]. intros Hw.
  destruct (MonthlyFacts.count_month_total md crash Hl Hw) as [md' E].
  unfold count_month in E. rewrite Hg in E. congruence.
Qed.

Lemma count_months_none crashes : forall md,
  length md = 12%nat ->
  count_months md crashes = None <-> Exists fractional_month crashes.
Proof.
  induction crashes as [|c l IH]; intros md Hl; simpl.
  - split; [discriminate | intros H; inversion H].
  - destruct (count_month md c) as [md'|] eqn:E.
    + rewrite IH by (rewrite (count_month_length _ _ _ E); exact Hl).
      split; [now right|]. intros H. inversion H as [? ? Hc | ? ? Hr]; subst; [|exact Hr].
      rewrite (fractional_throws md c Hc) in E. discriminate.
    + split; [|reflexivity]. intros _. left. now apply throws_fractional with md.
Qed.

(** X2.  [processMonthlyTrends] throws exactly on the datasets that hold
    a crash whose month lies within [[1,12]] and is no whole number. *)
Theorem monthly_throws_iff (crashes : list row) :
  processMonthlyTrends crashes = None <-> Exists fractional_month crashes.
Proof. apply count_months_none, length_replicate. Qed.

(** Witness of [monthly_throws_iff]: a month that reads 1.5. *)
Lemma monthly_throws_iff_witness :
  Exists fractional_month [Samples.crash1; Samples.crash_mid_month].
Proof.
  apply (proj1 (monthly_throws_iff [Samples.crash1; Samples.crash_mid_month])).
  vm_compute. reflexivity.
Defined.

End MonthCountFacts.

(* ===================================================================== *)
(** * The analytics panel: weather distribution                           *)
(* ===================================================================== *)

Module WeatherFacts.
Import AnalyticsPanel Spec.

(** ** The counters *)

Lemma tally_bump counts w w' :
  tally (bump counts w) w' = (tally counts w' + Nat.b2n (bool_decide (w = w')))%nat.
Proof.
  induction counts as [|[v n] rest IH]; simpl.
  - repeat case_decide; rewrite ?bool_decide_eq_true_2, ?bool_decide_eq_false_2 by done;
      simpl; congruence.
  - destruct (decide (v = w)) as [-> | Hne]; simpl.
    + destruct (decide (w = w')) as [-> | Hne'].
      * rewrite bool_decide_eq_true_2 by done. simpl. lia.
      * rewrite bool_decide_eq_false_2 by done. simpl. lia.
    + destruct (decide (v = w')) as [-> | Hne']; [|exact IH].
      rewrite bool_decide_eq_false_2 by congruence. simpl. lia.
Qed.

Lemma bump_keys_old counts w :
  In w (List.map fst counts) -> List.map fst (bump counts w) = List.map fst counts.
Proof.
  induction counts as [|[v n] rest IH]; simpl; [intros []|].
  destruct (decide (v = w)) as [-> | Hne]; simpl; [reflexivity|].
  intros [? | H]; [contradiction | now rewrite IH].
Qed.

Lemma bump_keys_new counts w :
  ~ In w (List.map fst counts) ->
  List.map fst (bump counts w) = (List.map fst counts ++ [w])%list.
Proof.
  induction counts as [|[v n] rest IH]; simpl; [reflexivity|].
  intros H. destruct (decide (v = w)) as [-> | Hne]; simpl; [tauto|].
  rewrite IH by tauto. reflexivity.
Qed.

Lemma keys_dec (counts : list (weather * nat)) w :
  In w (List.map fst counts) \/ ~ In w (List.map fst counts).
Proof.
  destruct (decide (w ∈ List.map fst counts)) as [H | H];
    rewrite list_elem_of_In in H; auto.
Qed.

Lemma bump_NoDup counts w :
  List.NoDup (List.map fst counts) -> List.NoDup (List.map fst (bump counts w)).
Proof.
  intros H. destruct (keys_dec counts w) as [E | E].
  - now rewrite bump_keys_old.
  - rewrite bump_keys_new by exact E.
    apply List.NoDup_app; [exact H | repeat constructor; intros [] |].
    intros x Hx [<- | []]. contradiction.
Qed.

Lemma bump_sum counts w :
  list_sum (List.map snd (bump counts w)) = S (list_sum (List.map snd counts)).
Proof.
  induction counts as [|[v n] rest IH]; simpl; [reflexivity|].
  destruct (decide (v = w)); simpl; [reflexivity | rewrite IH; lia].
Qed.

Lemma bump_positive counts w :
  Forall (fun e => (1 <= snd e)%nat) counts ->
  Forall (fun e => (1 <= snd e)%nat) (bump counts w).
Proof.
  induction 1 as [|[v n] rest Hn Hr IH]; simpl.
  - repeat constructor.
  - destruct (decide (v = w)); constructor; simpl in *; auto; lia.
Qed.

Lemma bump_key_in counts w x :
  In x (List.map fst (bump counts w)) -> x = w \/ In x (List.map fst counts).
Proof.
  destruct (keys_dec counts w) as [E | E].
  - rewrite bump_keys_old by exact E. now right.
  - rewrite bump_keys_new by exact E.
    intros H. apply in_app_or in H as [H | [<- | []]]; auto.
Qed.

(** With distinct keys, an entry holds the tally of its key. *)
Lemma tally_entry counts w n :
  List.NoDup (List.map fst counts) -> In (w, n) counts -> tally counts w = n.
Proof.
  induction counts as [|[v m] rest IH]; simpl; intros Hd Hin; [destruct Hin|].
  inversion Hd as [|? ? Hv Hr]; subst.
  destruct Hin as [E | Hin].
  - injection E as -> ->. now rewrite decide_True.
  - destruct (decide (v = w)) as [-> | Hne]; [|now apply IH].
    exfalso. apply Hv. apply in_map_iff. exists (w, n). auto.
Qed.

(** The state of [weatherCounts] after any number of crashes. *)
Lemma weatherCounts_invariant crashes : forall counts,
  List.NoDup (List.map fst counts) ->
  Forall (fun e => (1 <= snd e)%nat) counts ->
  let after :=
    fold_left (fun cs crash => bump cs (weather_of (field crash "WEATHER1")))
      crashes counts in
  List.NoDup (List.map fst after)
  /\ Forall (fun e => (1 <= snd e)%nat) after
  /\ list_sum (List.map snd after)
     = (list_sum (List.map snd counts) + length crashes)%nat
  /\ (forall w, tally after w
                = (tally counts w + length (List.filter (has_weather w) crashes))%nat)
  /\ (forall x, In x (List.map fst after) ->
                In x (List.map fst counts)
                \/ exists c, In c crashes /\ weather_of (field c "WEATHER1") = x).
Proof.
  induction crashes as [|c l IH]; intros counts Hd Hp; cbn [fold_left].
  - simpl. repeat split; auto; intros; lia.
  - destruct (IH (bump counts (weather_of (field c "WEATHER1"))))
      as (H1 & H2 & H3 & H4 & H5);
      [now apply bump_NoDup | now apply bump_positive |].
    split; [exact H1|]. split; [exact H2|]. split; [|split].
    + cbv zeta in H3. rewrite H3, bump_sum. simpl. lia.
    + intros w. cbv zeta in H4. rewrite H4, tally_bump. cbn [List.filter].
      unfold has_weather at 2.
      destruct (bool_decide (weather_of (field c "WEATHER1") = w)); simpl; lia.
    + intros x Hx. destruct (H5 x Hx) as [Hin | (c' & Hc' & E)].
      * apply bump_key_in in Hin as [-> | Hin]; [|now left].
        right. exists c. split; [now left | reflexivity].
      * right. exists c'. split; [now right | exact E].
Qed.

(** ** The stable sort *)

Lemma insert_desc_perm x l : Permutation (insert_desc x l) (x :: l).
Proof.
  induction l as [|y t IH]; simpl; [reflexivity|].
  destruct (snd y <=? snd x)%nat; [reflexivity|].
  rewrite IH. apply perm_swap.
Qed.

Lemma sort_desc_perm l : Permutation (sort_desc l) l.
Proof.
  induction l as [|x l IH]; simpl; [reflexivity|].
  rewrite insert_desc_perm. now constructor.
Qed.

Lemma insert_desc_sorted x l : descending l -> descending (insert_desc x l).
Proof.
  unfold descending. induction 1 as [|y t Ht IH Hy]; simpl.
  - repeat constructor.
  - destruct (snd y <=? snd x)%nat eqn:E.
    + apply Nat.leb_le in E. constructor; [now constructor|].
      constructor; [exact E|].
      rewrite List.Forall_forall in *. intros z Hz. specialize (Hy z Hz). lia.
    + apply Nat.leb_gt in E. constructor; [exact IH|].
      rewrite List.Forall_forall in *. intros z Hz.
      apply (Permutation_in _ (insert_desc_perm x t)) in Hz.
      destruct Hz as [<- | Hz]; [lia | now apply Hy].
Qed.

Lemma sort_desc_sorted l : descending (sort_desc l).
Proof.
  induction l as [|x l IH]; simpl; [constructor | now apply insert_desc_sorted].
Qed.

Lemma In_take {A} (l : list A) : forall n x, In x (take n l) -> In x l.
Proof.
  induction l as [|y t IH]; intros [|n] x H; simpl in *; try tauto.
  destruct H as [-> | H]; [now left | right; eauto].
Qed.

Lemma In_drop {A} (l : list A) : forall n x, In x (drop n l) -> In x l.
Proof.
  induction l as [|y t IH]; intros [|n] x H; simpl in *; try tauto.
  right. eauto.
Qed.

Lemma descending_take n l : descending l -> descending (take n l).
Proof.
  unfold descending. intros H. revert n.
  induction H as [|y t Ht IH Hy]; intros [|n]; simpl; try constructor.
  - apply IH.
  - rewrite List.Forall_forall in *. intros z Hz. apply Hy.
    eapply In_take; eauto.
Qed.

(** In a descending list, what follows the first [n] entries is no
    larger than any of them. *)
Lemma descending_split n l x y :
  descending l -> In x (take n l) -> In y (drop n l) -> (snd y <= snd x)%nat.
Proof.
  unfold descending. intros H. revert n.
  induction H as [|z t Ht IH Hz]; intros [|n]; simpl; try tauto.
  intros [<- | Hx] Hy.
  - rewrite List.Forall_forall in Hz. apply Hz.
    eapply In_drop; eauto.
  - eapply IH; eauto.
Qed.

Lemma list_sum_perm l l' : Permutation l l' -> list_sum l = list_sum l'.
Proof. induction 1; simpl; lia. Qed.

Lemma tally_positive counts w :
  (1 <= tally counts w)%nat -> In (w, tally counts w) counts.
Proof.
  induction counts as [|[v n] rest IH]; simpl; [lia|].
  destruct (decide (v = w)) as [-> | Hne]; [now left | right; auto].
Qed.

(** The sorted entries: distinct keys, accurate and positive counts. *)
Lemma sorted_entries crashes :
  let sorted := sort_desc (weatherCounts crashes) in
  List.NoDup (List.map fst sorted)
  /\ (forall w n, In (w, n) sorted <->
        n = length (List.filter (has_weather w) crashes) /\ (1 <= n)%nat)
  /\ list_sum (List.map snd sorted) = length crashes
  /\ (forall x, In x (List.map fst sorted) ->
        exists c, In c crashes /\ weather_of (field c "WEATHER1") = x).
Proof.
  cbv zeta. unfold weatherCounts.
  destruct (weatherCounts_invariant crashes []) as (H1 & H2 & H3 & H4 & H5);
    [constructor | constructor |]. cbv zeta in *.
  set (counts := fold_left _ crashes []) in *.
  pose proof (sort_desc_perm counts) as Hp.
  assert (H4' : forall w, tally counts w = length (List.filter (has_weather w) crashes))
    by (intros w; apply (H4 w)).
  split; [|split; [|split]].
  - eapply Permutation_NoDup; [|exact H1].
    apply Permutation_map. now symmetry.
  - intros w n. split.
    + intros Hin. apply (Permutation_in _ Hp) in Hin.
      rewrite <- H4', (tally_entry counts w n H1 Hin). split; [reflexivity|].
      rewrite List.Forall_forall in H2. apply (H2 _ Hin).
    + intros [-> Hn]. apply (Permutation_in _ (Permutation_sym Hp)).
      rewrite <- H4' in *. now apply tally_positive.
  - rewrite (list_sum_perm _ _ (Permutation_map snd Hp)). exact H3.
  - intros x Hx.
    apply (Permutation_in _ (Permutation_map fst Hp)) in Hx.
    destruct (H5 x Hx) as [[] | H]. exact H.
Qed.

(** X3.  The weather chart has at most ten entries, in descending order
    of their counts and with distinct labels; each entry holds the
    number of crashes of its weather, which is at least one. *)
Theorem weather_entries (crashes : list row) :
  (length (processWeatherDistribution crashes) <= 10)%nat
  /\ descending (processWeatherDistribution crashes)
  /\ List.NoDup (List.map fst (processWeatherDistribution crashes))
  /\ forall w n, In (w, n) (processWeatherDistribution crashes) ->
       n = length (List.filter (has_weather w) crashes) /\ (1 <= n)%nat.
Proof.
  unfold processWeatherDistribution.
  destruct (sorted_entries crashes) as (H1 & H2 & _). cbv zeta in *.
  split; [rewrite length_take; lia|].
  split; [apply WeatherFacts.descending_take, sort_desc_sorted|].
  split.
  - rewrite <- (take_drop 10 (sort_desc (weatherCounts crashes))) in H1.
    rewrite List.map_app in H1. now apply List.NoDup_app_remove_r in H1.
  - intros w n Hin. apply H2. eapply In_take; eauto.
Qed.

(** X4.  The chart keeps the most frequent weathers: a weather that
    occurs in the data and is missing from the chart occurs no more
    often than any weather of the chart. *)
Theorem weather_top_ten (crashes : list row) (w w' : weather) (n' : nat) :
  (1 <= length (List.filter (has_weather w) crashes))%nat ->
  ~ In w (List.map fst (processWeatherDistribution crashes)) ->
  In (w', n') (processWeatherDistribution crashes) ->
  (length (List.filter (has_weather w) crashes) <= n')%nat.
Proof.
  unfold processWeatherDistribution. intros Hw Hout Hin.
  destruct (sorted_entries crashes) as (_ & H2 & _). cbv zeta in *.
  set (sorted := sort_desc (weatherCounts crashes)) in *.
  assert (Hs : In (w, length (List.filter (has_weather w) crashes)) sorted)
    by (apply H2; auto).
  rewrite <- (take_drop 10 sorted) in Hs. apply in_app_or in Hs as [Hs | Hs].
  - exfalso. apply Hout. apply in_map_iff. eexists. split; [|exact Hs]. reflexivity.
  - apply (descending_split 10 sorted (w', n') _ (sort_desc_sorted _) Hin Hs).
Qed.

(** A key that reaches nothing on [Object.prototype] is given one of the
    ten labels. *)
Lemma ordinary_label c :
  ordinary (ToPropertyKey c) = true ->
  exists label, weather_of c = Label label /\ In label weather_labels.
Proof.
  intros H. unfold weather_of, ordinary in *. apply negb_true_iff in H. rewrite H.
  destruct (weatherMap !! ToPropertyKey c) as [label|] eqn:E.
  - exists label. split; [reflexivity|].
    unfold weatherMap in E. apply elem_of_list_to_map_2 in E.
    apply list_elem_of_In in E. simpl in E.
    repeat (destruct E as [E | E]; [injection E as _ <-; simpl; tauto|]).
    destruct E.
  - exists "Unknown". split; [reflexivity | simpl; tauto].
Qed.

(** X5.  When no weather cell names a member of [Object.prototype], the
    ten entries are never exceeded: nothing is cut from the chart, every
    label is one of the ten of the table, and the counts add up to the
    number of crashes. *)
Theorem weather_complete (crashes : list row) :
  Forall (fun c => ordinary (ToPropertyKey (field c "WEATHER1")) = true) crashes ->
  processWeatherDistribution crashes = sort_desc (weatherCounts crashes)
  /\ list_sum (List.map snd (processWeatherDistribution crashes)) = length crashes
  /\ forall w, In w (List.map fst (processWeatherDistribution crashes)) ->
       exists label, w = Label label /\ In label weather_labels.
Proof.
  intros Hord. unfold processWeatherDistribution.
  destruct (sorted_entries crashes) as (H1 & _ & H3 & H4). cbv zeta in *.
  set (sorted := sort_desc (weatherCounts crashes)) in *.
  assert (Hl : forall w, In w (List.map fst sorted) ->
            exists label, w = Label label /\ In label weather_labels).
  { intros w Hw. destruct (H4 w Hw) as (c & Hc & <-).
    rewrite List.Forall_forall in Hord.
    destruct (ordinary_label _ (Hord c Hc)) as (label & E & Hin). eauto. }
  assert (Hlen : (length sorted <= 10)%nat).
  { rewrite <- (length_map fst sorted).
    change 10%nat with (length (List.map Label weather_labels)).
    apply List.NoDup_incl_length; [exact H1|].
    intros w Hw. destruct (Hl w Hw) as (label & -> & Hin). now apply in_map. }
  rewrite take_ge by exact Hlen. auto.
Qed.

(** Witness of [weather_entries], [weather_top_ten] and
    [weather_complete]: three crashes in the rain, one in clear weather,
    one with a blank cell. *)
Lemma weather_entries_witness :
  3%nat = length (List.filter (has_weather (Label "Rain")) Samples.weather_crashes).
Proof.
  destruct (weather_entries Samples.weather_crashes) as (_ & _ & _ & H).
  apply (H (Label "Rain") 3%nat). vm_compute. tauto.
Defined.

Lemma weather_complete_witness :
  list_sum (List.map snd (processWeatherDistribution Samples.weather_crashes)) = 5%nat.
Proof.
  destruct (weather_complete Samples.weather_crashes) as (_ & H & _).
  - repeat constructor.
  - exact H.
Defined.

(** Witness of [weather_top_ten]: with the ten labels twice each in the
    chart, a weather seen once is left out. *)
Lemma weather_top_ten_witness :
  (length (List.filter (has_weather (Inherited "valueOf")) Samples.crowded_weather)
   <= 2)%nat.
Proof.
  apply (weather_top_ten Samples.crowded_weather (Inherited "valueOf") (Label "Clear")).
  - vm_compute. lia.
  - vm_compute. intros H.
    repeat (destruct H as [H | H]; [discriminate|]). destruct H.
  - vm_compute. tauto.
Defined.

End WeatherFacts.

(* ===================================================================== *)
(** * The analytics panel: the hours add up                               *)
(* ===================================================================== *)

Module HourSumFacts.
Import AnalyticsPanel JSFacts Spec.

Lemma list_sum_alter (l : list nat) : forall i,
  (i < length l)%nat -> list_sum (alter S i l) = S (list_sum l).
Proof.
  induction l as [|x l IH]; intros [|i] H; simpl in H; try lia.
  - reflexivity.
  - change (alter S (S i) (x :: l)) with (x :: alter S i l).
    simpl. rewrite IH by lia. lia.
Qed.

Lemma some_hour_iff crash :
  some_hour crash = true <-> exists h, (h < 24)%nat /\ hour_is h crash = true.
Proof.
  unfold some_hour. rewrite existsb_exists. split.
  - intros (h & Hin & H). exists h. split; [|exact H]. apply in_seq in Hin. lia.
  - intros (h & Hh & H). exists h. split; [|exact H]. apply in_seq. lia.
Qed.

(** One round of the loop adds one to the sum for a crash that holds an
    hour, and nothing otherwise. *)
Lemma count_hour_sum distribution crash :
  length distribution = 24%nat ->
  length (count_hour distribution crash) = 24%nat
  /\ list_sum (count_hour distribution crash)
     = (list_sum distribution + Nat.b2n (some_hour crash))%nat.
Proof.
  intros Hl. unfold count_hour, hour_guard, increment.
  set (c := field crash "HOUR_OF_DAY").
  destruct (js_ge c (Fin 0) && js_lt c (Fin 24)) eqn:Hg.
  - destruct (array_index (ToPropertyKey c)) as [i|] eqn:Hi.
    + destruct (HourlyFacts.guarded_hour_in_range c i Hg Hi) as [Ri Hc].
      assert (Hs : some_hour crash = true).
      { apply some_hour_iff. exists (N.to_nat i). split; [lia | exact Hc]. }
      rewrite Hs, length_alter, list_sum_alter by lia. simpl. split; [exact Hl | lia].
    + destruct (some_hour crash) eqn:Hs; [|simpl; split; [exact Hl | lia]].
      exfalso. apply some_hour_iff in Hs as (h & Hh & Hc).
      destruct (HourlyFacts.hour_cell_index c h Hh Hc) as [_ Hi']. congruence.
  - destruct (some_hour crash) eqn:Hs; [|simpl; split; [exact Hl | lia]].
    exfalso. apply some_hour_iff in Hs as (h & Hh & Hc).
    destruct (HourlyFacts.hour_cell_index c h Hh Hc) as [Hg' _]. congruence.
Qed.

Lemma fold_count_hour_sum crashes : forall distribution,
  length distribution = 24%nat ->
  list_sum (fold_left count_hour crashes distribution)
  = (list_sum distribution + length (List.filter some_hour crashes))%nat.
Proof.
  induction crashes as [|c l IH]; intros d Hl; cbn [fold_left List.filter].
  - simpl. lia.
  - destruct (count_hour_sum d c Hl) as [Hl' Hs].
    rewrite (IH _ Hl'), Hs. destruct (some_hour c); simpl; lia.
Qed.

Lemma counts_of_imap (counts : list nat) : forall label : nat -> string,
  List.map snd (imap (fun hour count => (label hour, count)) counts) = counts.
Proof.
  induction counts as [|x l IH]; intros label; simpl; [reflexivity|].
  f_equal. apply (IH (fun hour => label (S hour))).
Qed.

(** X6.  The 24 buckets of the hourly distribution add up to the number
    of crashes that hold one of the hours 0 to 23, so to no more than
    the number of crashes: no crash is counted twice, and a crash with
    any other hour cell is counted nowhere. *)
Theorem hourly_total (crashes : list row) :
  list_sum (List.map snd (processTimeDistribution crashes))
  = length (List.filter some_hour crashes)
  /\ (list_sum (List.map snd (processTimeDistribution crashes)) <= length crashes)%nat.
Proof.
  assert (H : list_sum (List.map snd (processTimeDistribution crashes))
              = length (List.filter some_hour crashes)).
  { unfold processTimeDistribution, hour_counts. rewrite counts_of_imap.
    rewrite fold_count_hour_sum by apply length_replicate.
    replace (list_sum (replicate 24 0%nat)) with 0%nat by reflexivity. lia. }
  split; [exact H|]. rewrite H. apply List.filter_length_le.
Qed.

End HourSumFacts.

(* ===================================================================== *)
(** * The filtered crash map: how the filters behave                      *)
(* ===================================================================== *)

Module FilterFacts.
Import CrashMapFiltered JSFacts Spec.

Lemma filter_all {A} (f : A -> bool) (l : list A) :
  (forall x, In x l -> f x = true) -> List.filter f l = l.
Proof.
  induction l as [|x l IH]; intros H; [reflexivity|].
  simpl. rewrite (H x) by now left. f_equal. apply IH. intros y Hy. apply H. now right.
Qed.

Lemma timeFilter_other t d : ~ In t time_buckets -> timeFilter t d = true.
Proof.
  intros H. unfold timeFilter.
  destruct (String.eqb t "all"); [reflexivity|].
  destruct (String.eqb_spec t "morning") as [-> | _]; [exfalso; apply H; simpl; tauto|].
  destruct (String.eqb_spec t "afternoon") as [-> | _]; [exfalso; apply H; simpl; tauto|].
  destruct (String.eqb_spec t "evening") as [-> | _]; [exfalso; apply H; simpl; tauto|].
  destruct (String.eqb_spec t "night") as [-> | _]; [exfalso; apply H; simpl; tauto|].
  reflexivity.
Qed.

Lemma severityFilter_other s d :
  s <> "fatal" -> s <> "injury" -> severityFilter s d = true.
Proof.
  intros H1 H2. unfold severityFilter.
  destruct (String.eqb s "all"); [reflexivity|].
  destruct (String.eqb_spec s "fatal"); [contradiction|].
  destruct (String.eqb_spec s "injury"); [contradiction|]. reflexivity.
Qed.

(** X7.  A time range other than the four buckets and a severity other
    than [fatal] and [injury] filter nothing out: [all], and any
    selector the switches do not know, show the whole data. *)
Theorem unknown_selectors_show_all (data : list enriched) (t s : string) :
  ~ In t time_buckets -> s <> "fatal" -> s <> "injury" ->
  filteredData data t s = data.
Proof.
  intros Ht H1 H2. unfold filteredData.
  rewrite (filter_all (timeFilter t)) by (intros; now apply timeFilter_other).
  apply filter_all. intros. now apply severityFilter_other.
Qed.

(** Witness of [unknown_selectors_show_all]: the selectors [all]. *)
Lemma unknown_selectors_show_all_witness :
  filteredData [Samples.enriched1] "all" "all" = [Samples.enriched1].
Proof.
  apply unknown_selectors_show_all.
  - simpl. intros H. repeat (destruct H as [H | H]; [discriminate|]). destruct H.
  - discriminate.
  - discriminate.
Defined.

(** X8.  A record whose hour cell is blank counts as hour 0: it is shown
    under [night] and under no other bucket.  A record whose hour cell
    converts to no number (an absent cell, a text that is no number) is
    shown under none of the four buckets. *)
Theorem blank_hour_is_night (d : enriched) :
  (field (crash d) "HOUR_OF_DAY" = Null ->
     forall t, In t time_buckets -> timeFilter t d = String.eqb t "night")
  /\ (ToNumber (field (crash d) "HOUR_OF_DAY") = NaN ->
        forall t, In t time_buckets -> timeFilter t d = false).
Proof.
  split; intros H t Ht; simpl in Ht;
    destruct Ht as [<- | [<- | [<- | [<- | []]]]];
    unfold timeFilter, js_ge, js_lt; simpl; rewrite H; reflexivity.
Qed.

(** Witness of [blank_hour_is_night]. *)
Lemma blank_hour_is_night_witness :
  timeFilter "night" Samples.enriched_blank_hour = true
  /\ timeFilter "morning" Samples.enriched_blank_hour = false.
Proof.
  destruct (blank_hour_is_night Samples.enriched_blank_hour) as [H _].
  split.
  - apply (H eq_refl "night"). simpl. tauto.
  - apply (H eq_refl "morning"). simpl. tauto.
Defined.

(** A range test on a cell, through the number it converts to. *)
Lemma range_test c lo hi :
  js_ge c (Fin lo) && js_lt c (Fin hi)
  = match ToNumber c with
    | Fin q => Qle_bool lo q && negb (Qle_bool hi q)
    | _ => false
    end.
Proof. unfold js_ge, js_lt. destruct (ToNumber c) as [|[]|q]; reflexivity. Qed.

Lemma timeFilter_ranges d :
  let hour := field (crash d) "HOUR_OF_DAY" in
  timeFilter "morning" d = js_ge hour (Fin 6) && js_lt hour (Fin 12)
  /\ timeFilter "afternoon" d = js_ge hour (Fin 12) && js_lt hour (Fin 18)
  /\ timeFilter "evening" d = js_ge hour (Fin 18) && js_lt hour (Fin 24)
  /\ timeFilter "night" d = js_ge hour (Fin 0) && js_lt hour (Fin 6).
Proof. repeat split. Qed.

(** A record passes as many bucket filters as its hour is valid: one or
    none. *)
Lemma buckets_of_record d :
  (Nat.b2n (timeFilter "morning" d) + Nat.b2n (timeFilter "afternoon" d)
   + Nat.b2n (timeFilter "evening" d) + Nat.b2n (timeFilter "night" d)
   = Nat.b2n (valid_hour d))%nat.
Proof.
  destruct (timeFilter_ranges d) as (-> & -> & -> & ->). unfold valid_hour.
  rewrite !range_test.
  destruct (ToNumber (field (crash d) "HOUR_OF_DAY")) as [| |q]; try reflexivity.
  destruct (Qle_bool 0 q) eqn:E0; destruct (Qle_bool 6 q) eqn:E6;
    destruct (Qle_bool 12 q) eqn:E12; destruct (Qle_bool 18 q) eqn:E18;
    destruct (Qle_bool 24 q) eqn:E24; try reflexivity; exfalso;
    repeat match goal with
           | H : Qle_bool _ _ = true |- _ => apply Qle_bool_iff in H
           | H : Qle_bool _ _ = false |- _ =>
               apply not_true_iff_false in H; rewrite Qle_bool_iff in H
           end; lra.
Qed.

Lemma length_filter_cons {A} (f : A -> bool) (x : A) (l : list A) :
  length (List.filter f (x :: l)) = (Nat.b2n (f x) + length (List.filter f l))%nat.
Proof. simpl. destruct (f x); reflexivity. Qed.

Lemma filter_filter {A} (f g : A -> bool) (l : list A) :
  List.filter g (List.filter f l) = List.filter (fun x => f x && g x) l.
Proof.
  induction l as [|x l IH]; simpl; [reflexivity|].
  destruct (f x); simpl; [destruct (g x)|]; now rewrite IH.
Qed.

(** X9.  The four time buckets split the records with a valid hour: for
    any severity selector, the numbers of points shown under [morning],
    [afternoon], [evening] and [night] add up to the number of records
    shown under [all] whose hour lies in [[0,24)]. *)
Theorem buckets_add_up (data : list enriched) (s : string) :
  (length (filteredData data "morning" s) + length (filteredData data "afternoon" s)
   + length (filteredData data "evening" s) + length (filteredData data "night" s)
   = length (filteredData (List.filter valid_hour data) "all" s))%nat.
Proof.
  unfold filteredData. rewrite !filter_filter.
  induction data as [|d l IH]; [reflexivity|].
  rewrite !length_filter_cons, <- IH.
  pose proof (buckets_of_record d) as H.
  change (timeFilter "all" d) with true.
  destruct (timeFilter "morning" d); destruct (timeFilter "afternoon" d);
    destruct (timeFilter "evening" d); destruct (timeFilter "night" d);
    destruct (valid_hour d); simpl in H; try discriminate;
    destruct (severityFilter s d); simpl; lia.
Qed.

Lemma filter_sublist {A} (f : A -> bool) (l : list A) : sublist (List.filter f l) l.
Proof.
  induction l as [|x l IH]; simpl; [constructor|].
  destruct (f x); [now apply sublist_skip | now apply sublist_cons].
Qed.

(** X10.  The filtered data is a subsequence of the data, in the order
    of the data; filtering it again with the same selectors changes
    nothing; and choosing the time range first and the severity later
    gives the same points as choosing both at once. *)
Theorem filtering_composes (data : list enriched) (t s : string) :
  sublist (filteredData data t s) data
  /\ filteredData (filteredData data t s) t s = filteredData data t s
  /\ filteredData (filteredData data t "all") "all" s = filteredData data t s
  /\ filteredData (filteredData data "all" s) t "all" = filteredData data t s.
Proof.
  unfold filteredData. repeat split.
  - etransitivity; apply filter_sublist.
  - rewrite !filter_filter. apply List.filter_ext. intros d.
    destruct (timeFilter t d); destruct (severityFilter s d); reflexivity.
  - rewrite !filter_filter. apply List.filter_ext. intros d.
    change (timeFilter "all" d) with true. change (severityFilter "all" d) with true.
    destruct (timeFilter t d); destruct (severityFilter s d); reflexivity.
  - rewrite !filter_filter. apply List.filter_ext. intros d.
    change (timeFilter "all" d) with true. change (severityFilter "all" d) with true.
    destruct (timeFilter t d); destruct (severityFilter s d); reflexivity.
Qed.

End FilterFacts.

(* ===================================================================== *)
(** * The filtered crash map: what the flag file can change               *)
(* ===================================================================== *)

Module FlagFacts.
Import CrashMapFiltered Spec.

Lemma flagLookup_stored flagRows : forall l,
  fold_left store (List.filter stored flagRows) l = fold_left store flagRows l.
Proof.
  induction flagRows as [|f fs IH]; intros l; [reflexivity|].
  cbn [List.filter fold_left]. destruct (stored f) eqn:E.
  - cbn [fold_left]. apply IH.
  - rewrite IH. f_equal. unfold store. unfold stored in E. now rewrite E.
Qed.

Lemma of_crash_loaded flagRows crashRows :
  List.map of_crash (loadData flagRows crashRows)
  = List.map (fun r => (r, calculateWeight r,
                        (ToNumber (field r "DEC_LONG"), ToNumber (field r "DEC_LAT"))))
      (List.filter isValid crashRows).
Proof. unfold loadData. rewrite List.map_map. reflexivity. Qed.

(** X11.  The flag file changes nothing but the flags of a record: the
    crashes on the map, their weights and their positions are the same
    for any two flag files.  Flag rows whose [CRN] is falsy (blank,
    absent, 0) change nothing at all: the data is the same without them. *)
Theorem flags_only_add_flags (flagRows otherFlags crashRows : list row) :
  List.map of_crash (loadData flagRows crashRows)
  = List.map of_crash (loadData otherFlags crashRows)
  /\ loadData (List.filter stored flagRows) crashRows = loadData flagRows crashRows.
Proof.
  split.
  - now rewrite !of_crash_loaded.
  - unfold loadData, flagLookup. now rewrite flagLookup_stored.
Qed.

End FlagFacts.

(* ===================================================================== *)
(** * Severity and colour across the components                           *)
(* ===================================================================== *)

Module ColourFacts.
Import Spec.

Lemma eq_zero_not_gt c : strict_eq c (Fin 0) = true -> js_gt c (Fin 0) = false.
Proof.
  intros H. destruct (js_gt c (Fin 0)) eqn:E; [|reflexivity].
  apply SeverityFacts.gt_zero_not_eq in E. congruence.
Qed.

(** X12.  The two maps and the severity chart classify alike: the
    filtered map paints a record in the colour the plain map gives its
    row, fully opaque; that colour is red, orange or yellow as the
    severity is FATAL, INJURY or PDO; and a row that the chart counts as
    fatal, as injury or as property is FATAL, INJURY or PDO on the map. *)
Theorem colours_agree (l : CrashMapFiltered.lookup) (r : row) :
  CrashMapFiltered.getFillColor (CrashMapFiltered.enrich l r)
  = (CrashMap.color (CrashMap.toPoint r) ++ [255%Z])%list
  /\ CrashMap.color (CrashMap.toPoint r)
     = match CrashMap.severity_of (CrashMap.toPoint r) with
       | CrashMap.FATAL => [255; 0; 0]
       | CrashMap.INJURY => [255; 140; 0]
       | CrashMap.PDO => [255; 255; 0]
       end%Z
  /\ (AnalyticsPanel.is_fatal r = true
      <-> CrashMap.severity_of (CrashMap.toPoint r) = CrashMap.FATAL)
  /\ (AnalyticsPanel.is_injury r = true ->
      CrashMap.severity_of (CrashMap.toPoint r) = CrashMap.INJURY)
  /\ (AnalyticsPanel.is_property r = true ->
      CrashMap.severity_of (CrashMap.toPoint r) = CrashMap.PDO).
Proof.
  unfold CrashMapFiltered.getFillColor, CrashMap.toPoint, AnalyticsPanel.is_fatal,
    AnalyticsPanel.is_injury, AnalyticsPanel.is_property.
  cbn [CrashMapFiltered.crash CrashMapFiltered.enrich CrashMap.color
       CrashMap.severity_of].
  set (f := field r "FATAL_COUNT"). set (i := field r "INJURY_COUNT").
  repeat split.
  - destruct (js_gt f (Fin 0)); [reflexivity|]. destruct (js_gt i (Fin 0)); reflexivity.
  - destruct (js_gt f (Fin 0)); [reflexivity|]. destruct (js_gt i (Fin 0)); reflexivity.
  - intros ->. reflexivity.
  - destruct (js_gt f (Fin 0)); [reflexivity|].
    destruct (js_gt i (Fin 0)); discriminate.
  - rewrite andb_true_iff. intros [Hi Hf]. rewrite (eq_zero_not_gt f Hf), Hi. reflexivity.
  - rewrite andb_true_iff. intros [Hf Hi].
    rewrite (eq_zero_not_gt f Hf), (eq_zero_not_gt i Hi). reflexivity.
Qed.

(** Witness of [colours_agree]: a crash with a fatality is FATAL. *)
Lemma colours_agree_witness :
  CrashMap.severity_of (CrashMap.toPoint Samples.crash1) = CrashMap.FATAL.
Proof.
  destruct (colours_agree CrashMapFiltered.empty_lookup Samples.crash1)
    as (_ & _ & H & _).
  apply H. vm_compute. reflexivity.
Defined.

End ColourFacts.

(* ===================================================================== *)
(** * The statistics cards against the chart and the map                  *)
(* ===================================================================== *)

Module StatisticsFacts.
Import CrashStatistics Spec.

Lemma filter_length_mono {A} (f g : A -> bool) (l : list A) :
  (forall x, f x = true -> g x = true) ->
  (length (List.filter f l) <= length (List.filter g l))%nat.
Proof.
  intros H. induction l as [|x l IH]; simpl; [lia|].
  destruct (f x) eqn:F; [rewrite (H x F); simpl; lia|].
  destruct (g x); simpl; lia.
Qed.

Lemma filter_map_length {A B} (f : B -> bool) (g : A -> B) (l : list A) :
  length (List.filter f (List.map g l)) = length (List.filter (fun x => f (g x)) l).
Proof.
  induction l as [|x l IH]; simpl; [reflexivity|].
  destruct (f (g x)); simpl; now rewrite IH.
Qed.

(** X13.  The cards and the severity chart: the fatal and the injury
    card never exceed the total; the fatal slice of the chart is the
    fatal card; the injury slice is at most the injury card; and the
    three slices together are at most the total. *)
Theorem cards_and_chart (crashes vehicles persons : list row) :
  let st := newStats crashes vehicles persons in
  (fatalCrashes st <= totalCrashes st)%nat
  /\ (injuryCrashes st <= totalCrashes st)%nat
  /\ exists injury property,
       AnalyticsPanel.processSeverityDistribution crashes
       = [("fatal", fatalCrashes st); ("injury", injury); ("property", property)]
       /\ (injury <= injuryCrashes st)%nat
       /\ (fatalCrashes st + injury + property <= totalCrashes st)%nat.
Proof.
  cbv zeta. unfold newStats. simpl.
  split; [apply List.filter_length_le|]. split; [apply List.filter_length_le|].
  eexists. eexists. split; [reflexivity|]. split.
  - apply filter_length_mono. intros x H.
    unfold AnalyticsPanel.is_injury in H. now apply andb_true_iff in H.
  - apply SeverityFacts.bucket_counts_le.
Qed.

(** The points of the map under a predicate of the crash row. *)
Lemma shown_le (flagRows crashes : list row) (t s : string) (f : row -> bool) :
  (forall d, CrashMapFiltered.severityFilter s d = true ->
             f (CrashMapFiltered.crash d) = true) ->
  (length (CrashMapFiltered.filteredData
             (CrashMapFiltered.loadData flagRows crashes) t s)
   <= length (List.filter f crashes))%nat.
Proof.
  intros H. unfold CrashMapFiltered.filteredData, CrashMapFiltered.loadData.
  rewrite FilterFacts.filter_filter.
  etransitivity.
  { apply (filter_length_mono _ (fun d => f (CrashMapFiltered.crash d))).
    intros d Hd. apply andb_true_iff in Hd as [_ Hd]. now apply H. }
  rewrite filter_map_length. cbn [CrashMapFiltered.crash CrashMapFiltered.enrich].
  rewrite FilterFacts.filter_filter.
  apply filter_length_mono. intros x Hx. now apply andb_true_iff in Hx.
Qed.

(** X14.  The map never shows more points than the cards count: under
    the selector [fatal] at most as many as the fatal card, under
    [injury] at most as many as the injury card, and under any selectors
    at most as many as the total, whatever the time range. *)
Theorem map_within_cards
    (flagRows crashes vehicles persons : list row) (t s : string) :
  let st := newStats crashes vehicles persons in
  let shown sel :=
    length (CrashMapFiltered.filteredData
              (CrashMapFiltered.loadData flagRows crashes) t sel) in
  (shown "fatal" <= fatalCrashes st)%nat
  /\ (shown "injury" <= injuryCrashes st)%nat
  /\ (shown s <= totalCrashes st)%nat.
Proof.
  cbv zeta. unfold newStats. simpl. repeat split.
  - apply shown_le. intros d Hd. exact Hd.
  - apply shown_le. intros d Hd. exact Hd.
  - rewrite <- (FilterFacts.filter_all (fun _ => true) crashes) at 2 by reflexivity.
    apply shown_le. reflexivity.
Qed.

End StatisticsFacts.

(* ===================================================================== *)
(** * The analytics panel: the months add up                              *)
(* ===================================================================== *)

Module MonthSumFacts.
Import AnalyticsPanel Spec.

Lemma list_sum_insert {A} (f : A -> nat) (l : list A) : forall i x y,
  l !! i = Some x ->
  (list_sum (List.map f (<[i := y]> l)) + f x = list_sum (List.map f l) + f y)%nat.
Proof.
  induction l as [|z l IH]; intros [|i] x y H; simpl in H; try discriminate.
  - injection H as ->. simpl. lia.
  - change (<[S i := y]> (z :: l)) with (z :: <[i := y]> l). simpl.
    specialize (IH i x y H). lia.
Qed.

(** One round of the loop adds the crash to the sums of the counters
    when its month passes the guard. *)
Lemma count_month_sums md crash md' :
  count_month md crash = Some md' ->
  list_sum (List.map total md')
  = (list_sum (List.map total md) + Nat.b2n (month_guard crash))%nat
  /\ list_sum (List.map fatal md')
     = (list_sum (List.map fatal md)
        + Nat.b2n (month_guard crash && is_fatal crash))%nat
  /\ list_sum (List.map injury md')
     = (list_sum (List.map injury md)
        + Nat.b2n (month_guard crash
                   && js_gt (field crash "INJURY_COUNT") (Fin 0)))%nat.
Proof.
  unfold count_month, is_fatal. intros H.
  destruct (month_guard crash).
  - destruct (array_index _) as [k|]; [|discriminate].
    destruct (md !! N.to_nat k) as [m|] eqn:Em; [|discriminate].
    set (bf := js_gt (field crash "FATAL_COUNT") (Fin 0)) in *.
    set (bi := js_gt (field crash "INJURY_COUNT") (Fin 0)) in *.
    injection H as <-.
    match goal with
    | |- context [<[_ := ?y]> md] =>
        pose proof (list_sum_insert total md _ m y Em) as Ht;
        pose proof (list_sum_insert fatal md _ m y Em) as Hf;
        pose proof (list_sum_insert injury md _ m y Em) as Hi
    end.
    destruct bf, bi; simpl in *; lia.
  - injection H as <-. simpl. lia.
Qed.

Lemma count_months_sums crashes : forall md out,
  count_months md crashes = Some out ->
  list_sum (List.map total out)
  = (list_sum (List.map total md) + length (List.filter month_guard crashes))%nat
  /\ list_sum (List.map fatal out)
     = (list_sum (List.map fatal md)
        + length (List.filter (fun c => month_guard c && is_fatal c) crashes))%nat
  /\ list_sum (List.map injury out)
     = (list_sum (List.map injury md)
        + length (List.filter
                    (fun c => month_guard c
                              && js_gt (field c "INJURY_COUNT") (Fin 0)) crashes))%nat.
Proof.
  induction crashes as [|c l IH]; intros md out H.
  - simpl in *. injection H as <-. lia.
  - simpl in H. destruct (count_month md c) as [md'|] eqn:E; [|discriminate].
    destruct (count_month_sums _ _ _ E) as (Ht & Hf & Hi).
    destruct (IH _ _ H) as (Ht' & Hf' & Hi').
    rewrite Ht', Hf', Hi', Ht, Hf, Hi. cbn [List.filter].
    set (g := month_guard c). set (bf := is_fatal c).
    set (bi := js_gt (field c "INJURY_COUNT") (Fin 0)).
    destruct g, bf, bi; cbn [andb Nat.b2n length]; lia.
Qed.

(** X15.  When [processMonthlyTrends] returns, the totals of the twelve
    months add up to the number of crashes whose month lies within
    [[1,12]], and the fatal and injury counts of the months to the
    numbers of those with [FATAL_COUNT > 0] and with [INJURY_COUNT > 0]:
    no crash is counted in two months, and none more than the dataset
    holds. *)
Theorem monthly_totals (crashes : list row) (out : list month) :
  processMonthlyTrends crashes = Some out ->
  list_sum (List.map total out) = length (List.filter month_guard crashes)
  /\ list_sum (List.map fatal out)
     = length (List.filter (fun c => month_guard c && is_fatal c) crashes)
  /\ list_sum (List.map injury out)
     = length (List.filter
                 (fun c => month_guard c && js_gt (field c "INJURY_COUNT") (Fin 0))
                 crashes)
  /\ (list_sum (List.map total out) <= length crashes)%nat.
Proof.
  intros H. unfold processMonthlyTrends in H.
  destruct (count_months_sums _ _ _ H) as (Ht & Hf & Hi).
  change (list_sum (List.map total (replicate 12 _))) with 0%nat in Ht.
  change (list_sum (List.map fatal (replicate 12 _))) with 0%nat in Hf.
  change (list_sum (List.map injury (replicate 12 _))) with 0%nat in Hi.
  simpl in Ht, Hf, Hi. repeat split; try assumption.
  rewrite Ht. apply List.filter_length_le.
Qed.

(** Witness of [monthly_totals]: five crashes of January and February. *)
Lemma monthly_totals_witness :
  exists out,
    processMonthlyTrends Samples.weather_crashes = Some out
    /\ list_sum (List.map total out) = 5%nat.
Proof.
  eexists. split; [vm_compute; reflexivity|].
  rewrite (proj1 (monthly_totals Samples.weather_crashes _ ltac:(vm_compute; reflexivity))).
  vm_compute. reflexivity.
Defined.

End MonthSumFacts.

(* ===================================================================== *)
(** * The risk chart of a batch                                           *)
(* ===================================================================== *)

Module RiskChartFacts.
Import PredictionsContainer RiskPredictionPanel JSFacts Spec PredictionsFacts.

(** [find] returns the first element that passes. *)
Lemma find_at {A} (f : A -> bool) (l : list A) : forall i x,
  l !! i = Some x -> f x = true ->
  (forall k y, (k < i)%nat -> l !! k = Some y -> f y = false) ->
  List.find f l = Some x.
Proof.
  induction l as [|z l IH]; intros [|i] x E Hx Hlt; simpl in E; try discriminate.
  - injection E as ->. simpl. now rewrite Hx.
  - simpl. rewrite (Hlt 0%nat z ltac:(lia) eq_refl).
    apply (IH i); [exact E | exact Hx |].
    intros k y Hk Ek. apply (Hlt (S k) y); [lia | exact Ek].
Qed.

(** A slot that no later response addresses keeps its content. *)
Lemma fold_arrive_other arrivals : forall b i,
  ~ In i (List.map fst arrivals) ->
  values (fold_left arrive arrivals b) !! i = values b !! i.
Proof.
  induction arrivals as [|[j d] l IH]; intros b i H; cbn [fold_left]; [reflexivity|].
  simpl in H. rewrite IH by tauto. unfold arrive.
  destruct (timestamps b !! j); [|reflexivity]. simpl.
  apply list_lookup_insert_ne. tauto.
Qed.

(** The slot of a request answered once holds its response, tagged. *)
Lemma fold_arrive_slot arrivals : forall b i data t,
  List.NoDup (List.map fst arrivals) -> In (i, data) arrivals ->
  timestamps b !! i = Some t -> (i < length (values b))%nat ->
  values (fold_left arrive arrivals b) !! i = Some (Some (tagged t data)).
Proof.
  induction arrivals as [|[j d] l IH]; intros b i data t Hnd Hin Et Hi;
    [destruct Hin|]. cbn [fold_left].
  simpl in Hnd. apply List.NoDup_cons_iff in Hnd as [Hj Hnd].
  destruct Hin as [E | Hin].
  - injection E as -> ->. rewrite fold_arrive_other by exact Hj.
    unfold arrive. rewrite Et. simpl. now apply list_lookup_insert_eq.
  - apply IH; try assumption.
    + now rewrite timestamps_arrive.
    + now rewrite length_values_arrive.
Qed.

Lemma hours_differ now k i :
  (k < i)%nat -> (i < 24)%nat ->
  ((now + Z.of_nat k) mod 24 <> (now + Z.of_nat i) mod 24)%Z.
Proof. intros Hk Hi. Z.to_euclidean_division_equations. lia. Qed.

Lemma Qeq_bool_inject_Z a b : Qeq_bool (inject_Z a) (inject_Z b) = Z.eqb a b.
Proof. unfold Qeq_bool. simpl. now rewrite !Z.mul_1_r. Qed.

Lemma field_tagged t data k :
  k <> "hour" -> field (tagged t data) k = field data k.
Proof. intros H. unfold field, tagged. now rewrite lookup_insert_ne. Qed.



End RiskChartFacts.

(* ===================================================================== *)
(** * The distribution of risk levels                                     *)
(* ===================================================================== *)

Module RiskDistributionFacts.
Import RiskPredictionPanel Spec.

Lemma get_own_set_own_eq acc k v : get_own (set_own acc k v) k = Some v.
Proof.
  induction acc as [|[k' w] acc IH]; simpl.
  - now rewrite String.eqb_refl.
  - destruct (String.eqb k' k) eqn:E; simpl; rewrite E; [reflexivity | exact IH].
Qed.

Lemma get_own_set_own_ne acc k v key :
  k <> key -> get_own (set_own acc k v) key = get_own acc key.
Proof.
  intros Hne. induction acc as [|[k' w] acc IH]; simpl.
  - apply String.eqb_neq in Hne. now rewrite Hne.
  - destruct (String.eqb k' k) eqn:E; simpl.
    + apply String.eqb_eq in E. subst k'.
      apply String.eqb_neq in Hne. now rewrite Hne.
    + now rewrite IH.
Qed.

Lemma get_own_In acc k v : get_own acc k = Some v -> In (k, v) acc.
Proof.
  induction acc as [|[k' w] acc IH]; simpl; [discriminate|].
  destruct (String.eqb k' k) eqn:E.
  - apply String.eqb_eq in E. intros [= ->]. left. now subst.
  - intros H. right. now apply IH.
Qed.

Lemma get_own_None acc k : get_own acc k = None -> ~ In k (List.map fst acc).
Proof.
  induction acc as [|[k' w] acc IH]; simpl; [tauto|].
  destruct (String.eqb k' k) eqn:E; [discriminate|].
  apply String.eqb_neq in E. intros H [H' | H']; [congruence | now apply IH].
Qed.

Lemma In_get_own acc k v :
  List.NoDup (List.map fst acc) -> In (k, v) acc -> get_own acc k = Some v.
Proof.
  induction acc as [|[k' w] acc IH]; simpl; [tauto|].
  intros Hnd. apply List.NoDup_cons_iff in Hnd as [Hk Hnd]. intros [E | H].
  - injection E as -> ->. now rewrite String.eqb_refl.
  - destruct (String.eqb k' k) eqn:E.
    + apply String.eqb_eq in E. subst k'. exfalso. apply Hk.
      apply in_map_iff. exists (k, v). split; [reflexivity | exact H].
    + now apply IH.
Qed.

Lemma keys_set_own acc k v :
  List.map fst (set_own acc k v)
  = match get_own acc k with
    | Some _ => List.map fst acc
    | None => (List.map fst acc ++ [k])%list
    end.
Proof.
  induction acc as [|[k' w] acc IH]; simpl; [reflexivity|].
  destruct (String.eqb k' k) eqn:E; simpl; [reflexivity|].
  rewrite IH. now destruct (get_own acc k).
Qed.

Lemma NoDup_set_own acc k v :
  List.NoDup (List.map fst acc) -> List.NoDup (List.map fst (set_own acc k v)).
Proof.
  intros Hnd. rewrite keys_set_own. destruct (get_own acc k) eqn:E; [exact Hnd|].
  apply get_own_None in E.
  eapply Permutation_NoDup; [apply Permutation_cons_append|].
  now apply List.NoDup_cons.
Qed.

Lemma NoDup_add_level acc p :
  List.NoDup (List.map fst acc) -> List.NoDup (List.map fst (add_level acc p)).
Proof.
  intros Hnd. unfold add_level.
  destruct (get_own acc _) as [[n | m ones]|]; try now apply NoDup_set_own.
  destruct (String.eqb _ "__proto__"); [exact Hnd|].
  destruct (existsb _ _); now apply NoDup_set_own.
Qed.

Lemma NoDup_fold_add_level ps : forall acc,
  List.NoDup (List.map fst acc) ->
  List.NoDup (List.map fst (fold_left add_level ps acc)).
Proof.
  induction ps as [|p ps IH]; intros acc H; cbn [fold_left]; [exact H|].
  apply IH. now apply NoDup_add_level.
Qed.

(** One round of [reduce]: what the accumulator holds under each key,
    from the number of predictions filed under it so far. *)
Lemma add_level_tally acc (cnt : string -> nat) p :
  (forall key,
     get_own acc key
     = if (cnt key =? 0)%nat || String.eqb key "__proto__" then None
       else Some (if ordinary key then Count (cnt key) else Spoilt key (cnt key))) ->
  forall key,
    get_own (add_level acc p) key
    = if (cnt key + Nat.b2n (has_level key p) =? 0)%nat || String.eqb key "__proto__"
      then None
      else Some (if ordinary key
                 then Count (cnt key + Nat.b2n (has_level key p))
                 else Spoilt key (cnt key + Nat.b2n (has_level key p))).
Proof.
  intros Inv key. unfold has_level, add_level.
  set (k := ToPropertyKey (field p "risk_level")).
  destruct (String.eqb k key) eqn:Ek.
  - apply String.eqb_eq in Ek. subst key. cbn [Nat.b2n].
    rewrite Nat.add_1_r. cbn [Nat.eqb orb].
    specialize (Inv k). unfold ordinary in *.
    destruct (cnt k =? 0)%nat eqn:E0; cbn [orb] in Inv.
    + rewrite Inv. apply Nat.eqb_eq in E0. rewrite E0.
      destruct (String.eqb k "__proto__"); [exact Inv|].
      destruct (existsb _ _); cbn [negb]; apply get_own_set_own_eq.
    + destruct (String.eqb k "__proto__"); [now rewrite Inv|].
      rewrite Inv. destruct (existsb _ _); cbn [negb]; apply get_own_set_own_eq.
  - cbn [Nat.b2n]. rewrite Nat.add_0_r. rewrite <- Inv.
    apply String.eqb_neq in Ek.
    destruct (get_own acc k) as [[n | m ones]|];
      try now apply get_own_set_own_ne.
    destruct (String.eqb k "__proto__"); [reflexivity|].
    destruct (existsb _ _); now apply get_own_set_own_ne.
Qed.

Lemma fold_add_level_tally ps : forall acc (cnt : string -> nat),
  (forall key,
     get_own acc key
     = if (cnt key =? 0)%nat || String.eqb key "__proto__" then None
       else Some (if ordinary key then Count (cnt key) else Spoilt key (cnt key))) ->
  forall key,
    get_own (fold_left add_level ps acc) key
    = if (cnt key + length (List.filter (has_level key) ps) =? 0)%nat
         || String.eqb key "__proto__"
      then None
      else Some (if ordinary key
                 then Count (cnt key + length (List.filter (has_level key) ps))
                 else Spoilt key (cnt key + length (List.filter (has_level key) ps))).
Proof.
  induction ps as [|p ps IH]; intros acc cnt Inv key; cbn [fold_left].
  - simpl. rewrite Nat.add_0_r. apply Inv.
  - rewrite FilterFacts.length_filter_cons, Nat.add_assoc.
    apply (IH (add_level acc p) (fun key => (cnt key + Nat.b2n (has_level key p))%nat)).
    now apply add_level_tally.
Qed.

Lemma insert_index_perm x l : Permutation (insert_index x l) (x :: l).
Proof.
  induction l as [|y l IH]; simpl; [reflexivity|].
  destruct (fst x <=? fst y)%N; [reflexivity|].
  rewrite IH. apply perm_swap.
Qed.

Lemma sort_index_perm l : Permutation (fold_right insert_index [] l) l.
Proof.
  induction l as [|x l IH]; simpl; [reflexivity|].
  rewrite insert_index_perm. now constructor.
Qed.

(** [Object.entries] lists every own property once. *)
Lemma entries_perm acc : Permutation (entries acc) acc.
Proof.
  unfold entries. rewrite sort_index_perm.
  induction acc as [|e acc IH]; [reflexivity|].
  cbn [omap list_omap List.filter].
  destruct (array_index (fst e)); cbn [List.map snd app].
  - now constructor.
  - rewrite <- Permutation_middle. now constructor.
Qed.

(** X17.  [riskDistribution] charts every risk level once.  A level
    other than [__proto__] is charted when a prediction carries it; a
    prediction whose level is [__proto__] is not charted at all.  The
    value of a level that names no member of [Object.prototype] is the
    number of predictions that carry it; the value of one that does is a
    text, the source of that member followed by one [1] per prediction. *)
Theorem risk_levels_charted (predictions : list (gmap string cell)) :
  List.NoDup (List.map fst (riskDistribution predictions))
  /\ forall name v,
       In (name, v) (riskDistribution predictions)
       <-> name <> "__proto__"
           /\ (0 < length (List.filter (has_level name) predictions))%nat
           /\ v = if ordinary name
                  then Count (length (List.filter (has_level name) predictions))
                  else Spoilt name (length (List.filter (has_level name) predictions)).
Proof.
  unfold riskDistribution.
  set (acc := fold_left add_level predictions []).
  assert (Hnd : List.NoDup (List.map fst acc)).
  { apply NoDup_fold_add_level. constructor. }
  assert (Hget : forall key,
            get_own acc key
            = if (length (List.filter (has_level key) predictions) =? 0)%nat
                 || String.eqb key "__proto__"
              then None
              else Some (if ordinary key
                         then Count (length (List.filter (has_level key) predictions))
                         else Spoilt key
                                (length (List.filter (has_level key) predictions)))).
  { intros key.
    apply (fold_add_level_tally predictions [] (fun _ => 0%nat)).
    intros key'. reflexivity. }
  split.
  - eapply Permutation_NoDup; [|exact Hnd].
    symmetry. apply Permutation_map, entries_perm.
  - intros name v. rewrite (Permutation_in' eq_refl (entries_perm acc)).
    specialize (Hget name). split.
    + intros Hin. apply (In_get_own _ _ _ Hnd) in Hin. rewrite Hin in Hget.
      destruct (Nat.eqb_spec (length (List.filter (has_level name) predictions)) 0);
        cbn [orb] in Hget; [discriminate|].
      destruct (String.eqb_spec name "__proto__"); [discriminate|].
      injection Hget as ->. repeat split; [assumption | lia].
    + intros (Hne & Hpos & ->). apply get_own_In. rewrite Hget.
      destruct (Nat.eqb_spec (length (List.filter (has_level name) predictions)) 0);
        [lia|].
      apply String.eqb_neq in Hne. now rewrite Hne.
Qed.

End RiskDistributionFacts.

(* ===================================================================== *)
(** * Hotspots: colours and the state of the map                          *)
(* ===================================================================== *)

Module HotspotFacts.
Import Hotspot Spec.

Lemma last_cons {A} (x : A) (l : list A) (d : A) :
  List.last (x :: l) d = List.last l x.
Proof.
  revert x d. induction l as [|y l IH]; intros x d; [reflexivity|].
  change (List.last (x :: y :: l) d) with (List.last (y :: l) d).
  now rewrite (IH y d), (IH y x).
Qed.

(** X18.  The state of the hotspot map after any number of calls of
    [fetchHotspots], whose requests may overlap: the hotspots are those
    of the request answered last and the error is the message of the
    request that failed last, whatever happened since.  No event clears
    an error: a fetch that succeeds after one that failed leaves the
    message in place. *)
Theorem fetch_outcome {hotspot : Type} (events : list (event hotspot))
    (st : state hotspot) :
  hotspots (run events st) = List.last (answers events) (hotspots st)
  /\ error (run events st) = List.last (List.map Some (failures events)) (error st).
Proof.
  unfold run. revert st.
  induction events as [|ev events IH]; intros st; [split; reflexivity|].
  cbn [fold_left]. destruct (IH (step st ev)) as [Hh He]. rewrite Hh, He.
  destruct ev; cbn [answers failures omap list_omap List.map];
    rewrite ?last_cons; split; reflexivity.
Qed.

Lemma NaN_not_gt score q : ToNumber score = NaN -> js_gt score (Fin q) = false.
Proof. unfold js_gt. now intros ->. Qed.

(** X19.  The hotspot panel and the hotspot map, written apart, class
    every risk score alike: red with red, yellow text with orange fill,
    green text with yellow fill.  A score that converts to no number is
    put in the lowest class by both. *)
Theorem hotspot_colours_agree (score : cell) :
  (getRiskColor score = "text-red-600" <-> getFillColor score = [255; 0; 0]%Z)
  /\ (getRiskColor score = "text-yellow-600" <-> getFillColor score = [255; 140; 0]%Z)
  /\ (getRiskColor score = "text-green-600" <-> getFillColor score = [255; 255; 0]%Z)
  /\ (ToNumber score = NaN ->
      getRiskColor score = "text-green-600" /\ getFillColor score = [255; 255; 0]%Z).
Proof.
  unfold getRiskColor, getFillColor.
  split; [|split; [|split]].
  4: { intros E. rewrite !(NaN_not_gt _ _ E). split; reflexivity. }
  all: destruct (js_gt score (Fin (7 # 10))), (js_gt score (Fin (3 # 10)));
    split; intros E; try reflexivity; discriminate.
Qed.

End HotspotFacts.
